(** * typecheck/framework.py: type-variable namespaces and the checker registry

    A shallow embedding of [src/typecheck/framework.py].

    - Class objects are the elements of a type [ty]; [issubclass] is the
      runtime's subclass test on them and [==] on classes is identity.
      Class objects are truthy and are never [None].
    - A [TypeVar] is an object compared by identity ([tv_id]); dictionaries
      keyed by type variables are finite maps keyed by that identity.
    - The instance handed to a namespace is [None] or an object with a
      [__dict__].  As a container it is, at each moment, a plain object, a
      sized container without assignment by key, or a dict-like container
      ([obj_state]); its truth value follows from that and may change
      between calls.  The dictionary stored under [NS_ATTRIBUTE] is a heap
      object, shared by reference between the instance and every namespace
      that read it.
    - Methods that mutate [self] or the heap return the new [self] and the
      new heap; a raised exception is [Raise].
    - [Checker._registered] is passed to the class methods that read or
      change it.  The predicate and the factory of an entry are functions of
      the annotation alone; [create] is [Checker.create], that is, [cls] is
      [Checker]. *)

From stdpp Require Import base option gmap list.

(** The outcome of a call: a returned value or a raised exception. *)
Inductive exn := AttributeError | TypeError | KeyError | UserError (n : nat).

Inductive result (A : Type) :=
| Ok (a : A)
| Raise (e : exn).
Arguments Ok {A} a.
Arguments Raise {A} e.

(** ** The module switch *)

(** The module-level flag [_enabled], [True] when the module is loaded;
    [disable()] and [enable()] assign to it. *)
Definition _enabled_at_load : bool := true.

Definition disable (_enabled : bool) : bool := false.

Definition enable (_enabled : bool) : bool := true.

Inductive switch_call := call_enable | call_disable.

Definition run_switch_call (_enabled : bool) (c : switch_call) : bool :=
  match c with
  | call_enable => enable _enabled
  | call_disable => disable _enabled
  end.

(** A sequence of calls, oldest first. *)
Fixpoint run_switch_calls (_enabled : bool) (calls : list switch_call) : bool :=
  match calls with
  | [] => _enabled
  | c :: rest => run_switch_calls (run_switch_call _enabled c) rest
  end.

(** ** The exception classes *)

(** [Exception] and the four classes the module declares. *)
Inductive exc_class :=
| Exception
| TypeCheckError
| TypeCheckSpecificationError
| InputParameterError
| ReturnValueError.

(** The base named in the [class] statement; [Exception] is declared
    elsewhere. *)
Definition exc_base (c : exc_class) : option exc_class :=
  match c with
  | Exception => None
  | TypeCheckError => Some Exception
  | TypeCheckSpecificationError => Some Exception
  | InputParameterError => Some TypeCheckError
  | ReturnValueError => Some TypeCheckError
  end.

#[global] Instance exc_class_eq_dec : EqDecision exc_class.
Proof. solve_decision. Defined.

(** [issubclass(c, d)] by walking up the bases, at most [fuel] steps. *)
Fixpoint exc_issubclass_fuel (fuel : nat) (c d : exc_class) : bool :=
  if bool_decide (c = d) then true
  else match fuel, exc_base c with
       | S fuel', Some b => exc_issubclass_fuel fuel' b d
       | _, _ => false
       end.

(** No chain of bases is longer than the number of classes. *)
Definition exc_issubclass (c d : exc_class) : bool :=
  exc_issubclass_fuel 5 c d.

Section Framework.

Context {ty : Type} `{EqDecision ty}.

(** The runtime's [issubclass(c, d)] on class objects. *)
Variable issubclass : ty -> ty -> bool.

(** ** Python values *)

(** [tg.TypeVar(name, bound=..., covariant=..., contravariant=...)]. *)
Record TypeVar := mkTypeVar {
  tv_id : nat;                   (* object identity *)
  __bound__ : option ty;         (* None when no bound is declared *)
  __covariant__ : bool;
  __contravariant__ : bool
}.

(** What the namespace reads of [self._instance]: its identity, whether
    [type(type(instance)) == tg.GenericMeta], and [__parameters__]. *)
Record instance := mkInstance {
  inst_id : nat;
  inst_GenericMeta : bool;
  __parameters__ : list TypeVar
}.

(** The values the checkers see.  [PyInstance] is the object a namespace
    was built on.  The three last constructors are the instances of
    [Checker] subclasses: [TypeChecker], [optional], and any further
    subclass a client registers. *)
Inductive pyobj :=
| PyNone
| PyBool (b : bool)
| PyNoValue                          (* the singleton Checker.no_value *)
| PyClass (c : ty)
| PyObject (id : nat) (cls : ty)
| PyDict (l : nat)                   (* reference to a dict on the heap *)
| PyInstance (i : instance)
| TypeChecker (_cls : pyobj)
| optional (_check : pyobj)
| UserChecker (n : nat).

(** ** Instances and the heap *)

(** What an instance is as a container, at a given moment.
    - [Plain]: its class defines neither [__bool__] nor [__len__]: it is
      truthy, [x in obj] and [obj[k] = x] raise [TypeError].
    - [Sized n iterable]: a container of [n] items, none of them a type
      variable, without assignment by key: [obj[k] = x] raises [TypeError]
      for a type variable [k]; [x in obj] is [False] for a type variable
      when the container can be iterated and raises [TypeError] when it
      cannot.
    - [Mapping items others]: a dict-like container; [items] are its
      entries under type-variable keys, [others] counts the other ones. *)
Inductive obj_state :=
| Plain
| Sized (n : nat) (iterable : bool)
| Mapping (items : gmap nat ty) (others : nat).

(** [h_dicts] holds the dict objects that serve as instance-level binding
    stores, by address; [h_attr] is, per instance, the entry
    [instance.__dict__[NS_ATTRIBUTE]] when it exists; [h_objs] is, per
    instance, what it is as a container ([Plain] when absent). *)
Record heap := mkHeap {
  h_dicts : gmap nat (gmap nat ty);
  h_attr : gmap nat nat;
  h_objs : gmap nat obj_state
}.

Definition dict_at (h : heap) (l : nat) : gmap nat ty :=
  default ∅ (h_dicts h !! l).

Definition obj_at (h : heap) (i : instance) : obj_state :=
  default Plain (h_objs h !! inst_id i).

(** [d[typevar] = its_type] on the dict at address [l]. *)
Definition dict_setitem (l : nat) (typevar : TypeVar) (its_type : ty)
    (h : heap) : heap :=
  {| h_dicts := <[l := <[tv_id typevar := its_type]> (dict_at h l)]> (h_dicts h);
     h_attr := h_attr h;
     h_objs := h_objs h |}.

(** [instance.__setattr__(NS_ATTRIBUTE, dict())]: a new empty dict. *)
Definition setattr_new_dict (i : instance) (h : heap) : nat * heap :=
  let l := fresh (dom (h_dicts h)) in
  (l, {| h_dicts := <[l := ∅]> (h_dicts h);
         h_attr := <[inst_id i := l]> (h_attr h);
         h_objs := h_objs h |}).

(** [bool(instance)]. *)
Definition inst_truthy (h : heap) (i : instance) : bool :=
  match obj_at h i with
  | Plain => true
  | Sized n _ => negb (n =? 0)
  | Mapping items others => negb (bool_decide (items = ∅)) || negb (others =? 0)
  end.

(** [instance[typevar] = its_type]. *)
Definition inst_setitem (i : instance) (typevar : TypeVar) (its_type : ty)
    (h : heap) : result heap :=
  match obj_at h i with
  | Mapping items others =>
      Ok {| h_dicts := h_dicts h;
            h_attr := h_attr h;
            h_objs := <[inst_id i :=
                          Mapping (<[tv_id typevar := its_type]> items) others]>
                        (h_objs h) |}
  | _ => Raise TypeError
  end.

(** [typevar in instance]. *)
Definition inst_contains (i : instance) (typevar : TypeVar) (h : heap)
    : result bool :=
  match obj_at h i with
  | Plain => Raise TypeError
  | Sized _ iterable => if iterable then Ok false else Raise TypeError
  | Mapping items _ => Ok (bool_decide (is_Some (items !! tv_id typevar)))
  end.

(** [instance[typevar]]. *)
Definition inst_getitem (i : instance) (typevar : TypeVar) (h : heap)
    : result ty :=
  match obj_at h i with
  | Mapping items _ =>
      match items !! tv_id typevar with
      | Some t => Ok t
      | None => Raise KeyError
      end
  | _ => Raise TypeError
  end.

(** Truth value of an object. *)
Definition truthy (h : heap) (x : pyobj) : bool :=
  match x with
  | PyNone => false
  | PyBool b => b
  | PyDict l => negb (bool_decide (dict_at h l = ∅))
  | PyInstance i => inst_truthy h i
  | _ => true
  end.

(** ** class TypeVarNamespace *)

(** What [self._instance_ns] refers to when it is not [None]: the dict the
    instance held under [NS_ATTRIBUTE] when it was read, or the instance
    itself. *)
Inductive store_ref :=
| StoreDict (l : nat)
| StoreInstance (i : instance).

Record TypeVarNamespace := mkTypeVarNamespace {
  _ns : gmap nat ty;
  _instance : option instance;
  _instance_ns : option store_ref
}.

(** [TypeVarNamespace(instance)].  [self._instance and
    self._instance.__dict__.get(NS_ATTRIBUTE)] is [None] for no instance,
    the instance itself when it is falsy, and otherwise the dict the
    instance holds at that moment, or [None] when it holds none. *)
Definition TypeVarNamespace__init__ (inst : option instance) (h : heap)
    : TypeVarNamespace :=
  {| _ns := ∅;
     _instance := inst;
     _instance_ns := match inst with
                     | None => None
                     | Some i =>
                         if inst_truthy h i
                         then StoreDict <$> h_attr h !! inst_id i
                         else Some (StoreInstance i)
                     end |}.

(** [typevar in tuple]: membership by identity. *)
Definition typevar_in (typevar : TypeVar) (l : list TypeVar) : bool :=
  existsb (fun p => bool_decide (tv_id p = tv_id typevar)) l.

Definition is_generic_in (self : TypeVarNamespace) (typevar : TypeVar) : bool :=
  match _instance self with
  | None => false                       (* type(None) is not a GenericMeta *)
  | Some i =>
      if negb (inst_GenericMeta i) then false
      else typevar_in typevar (__parameters__ i)
  end.

Definition bind_to_instance (self : TypeVarNamespace) (typevar : TypeVar)
    (its_type : ty) (h : heap) : result (TypeVarNamespace * heap) :=
  match _instance_ns self with
  | None =>
      match _instance self with
      | None => Raise AttributeError
      | Some i =>
          let '(l, h1) := setattr_new_dict i h in
          let self1 := {| _ns := _ns self; _instance := _instance self;
                          _instance_ns := StoreDict <$> h_attr h1 !! inst_id i |} in
          Ok (self1, dict_setitem l typevar its_type h1)
      end
  | Some (StoreDict l) => Ok (self, dict_setitem l typevar its_type h)
  | Some (StoreInstance i) =>
      match inst_setitem i typevar its_type h with
      | Ok h' => Ok (self, h')
      | Raise e => Raise e
      end
  end.

(** The assertion [type(typevar) == tg.TypeVar] holds by the type of
    [typevar]. *)
Definition bind (self : TypeVarNamespace) (typevar : TypeVar) (its_type : ty)
    (h : heap) : result (TypeVarNamespace * heap) :=
  if is_generic_in self typevar then bind_to_instance self typevar its_type h
  else Ok ({| _ns := <[tv_id typevar := its_type]> (_ns self);
              _instance := _instance self;
              _instance_ns := _instance_ns self |}, h).

Definition is_bound (self : TypeVarNamespace) (typevar : TypeVar) (h : heap)
    : result pyobj :=
  if bool_decide (is_Some (_ns self !! tv_id typevar)) then Ok (PyBool true)
  else match _instance_ns self with
       | None => Ok PyNone
       | Some (StoreDict l) =>
           if truthy h (PyDict l)
           then Ok (PyBool (bool_decide (is_Some (dict_at h l !! tv_id typevar))))
           else Ok (PyDict l)
       | Some (StoreInstance i) =>
           if truthy h (PyInstance i)
           then match inst_contains i typevar h with
                | Ok b => Ok (PyBool b)
                | Raise e => Raise e
                end
           else Ok (PyInstance i)
       end.

(** Returns the type the typevar is bound to, or None. *)
Definition binding_of (self : TypeVarNamespace) (typevar : TypeVar) (h : heap)
    : result (option ty) :=
  match _ns self !! tv_id typevar with
  | Some t => Ok (Some t)
  | None =>
      match _instance_ns self with
      | None => Ok None
      | Some (StoreDict l) =>
          if truthy h (PyDict l) then Ok (dict_at h l !! tv_id typevar)
          else Ok None
      | Some (StoreInstance i) =>
          if truthy h (PyInstance i)
          then match inst_contains i typevar h with
               | Ok true =>
                   match inst_getitem i typevar h with
                   | Ok t => Ok (Some t)
                   | Raise e => Raise e
                   end
               | Ok false => Ok None
               | Raise e => Raise e
               end
          else Ok None
      end
  end.

Definition is_compatible (self : TypeVarNamespace) (typevar : TypeVar)
    (its_type : ty) (h : heap) : result (bool * TypeVarNamespace * heap) :=
  match binding_of self typevar h with
  | Raise e => Raise e
  | Ok binding =>
      if match binding, __bound__ typevar with
         | Some b, Some u => negb (issubclass b u)
         | _, _ => false
         end
      then Ok (false, self, h)                         (* bound violation *)
      else match binding with
           | None =>
               match bind self typevar its_type h with
               | Ok (self', h') => Ok (true, self', h')   (* initial binding *)
               | Raise e => Raise e
               end
           | Some b =>
               if __covariant__ typevar then Ok (issubclass its_type b, self, h)
               else if __contravariant__ typevar
                    then Ok (issubclass b its_type, self, h)
                    else Ok (bool_decide (b = its_type), self, h)
           end
  end.

(** ** class Checker and its subclasses *)

(** [isinstance(x, Checker)]. *)
Definition isinstance_Checker (x : pyobj) : bool :=
  match x with
  | TypeChecker _ | optional _ | UserChecker _ => true
  | _ => false
  end.

(** An entry of [Checker._registered]: [(predicate, factory)]. *)
Definition entry : Type := (pyobj -> bool) * (pyobj -> pyobj).

Definition register (_registered : list entry) (predicate : pyobj -> bool)
    (factory : pyobj -> pyobj) (prepend : bool) : list entry :=
  if prepend then (predicate, factory) :: _registered     (* insert(0, ...) *)
  else _registered ++ [(predicate, factory)].             (* append(...) *)

(** The [for predicate, factory in cls._registered: ... else: return None]
    loop of [create]. *)
Fixpoint create_loop (_registered : list entry) (annotation : pyobj) : pyobj :=
  match _registered with
  | [] => PyNone
  | (predicate, factory) :: rest =>
      if predicate annotation then factory annotation
      else create_loop rest annotation
  end.

Definition create (_registered : list entry) (annotation_or_checker : pyobj)
    : pyobj :=
  if isinstance_Checker annotation_or_checker
  then annotation_or_checker                       (* is a checker already *)
  else create_loop _registered annotation_or_checker.

(** A history of [register] calls, oldest first: each call gives its entry
    and its [prepend] flag. *)
Fixpoint register_all (_registered : list entry) (calls : list (entry * bool))
    : list entry :=
  match calls with
  | [] => _registered
  | (e, prepend) :: rest =>
      register_all (register _registered e.1 e.2 prepend) rest
  end.

(** The entries a history puts in front of the list it started from, and
    those it puts behind it, in list order. *)
Fixpoint prepended (calls : list (entry * bool)) : list entry :=
  match calls with
  | [] => []
  | (e, prepend) :: rest => prepended rest ++ (if prepend then [e] else [])
  end.

Fixpoint appended (calls : list (entry * bool)) : list entry :=
  match calls with
  | [] => []
  | (e, prepend) :: rest => (if prepend then [] else [e]) ++ appended rest
  end.

(** No entry of the list has a predicate that accepts [annotation]. *)
Definition no_match (_registered : list entry) (annotation : pyobj) : Prop :=
  Forall (fun e : entry => e.1 annotation = false) _registered.

Definition inspect_isclass (x : pyobj) : bool :=
  match x with
  | PyClass _ => true
  | _ => false
  end.

(** The registry once the module is loaded:
    [Checker.register(inspect.isclass, TypeChecker)]. *)
Definition module_registered : list entry :=
  register [] inspect_isclass TypeChecker false.

(** [optional(check)]: the wrapped checker is resolved at construction. *)
Definition optional__init__ (_registered : list entry) (check : pyobj) : pyobj :=
  optional (create _registered check).

(** [type(value)], and the [check] methods of client-defined subclasses of
    [Checker], indexed by the tag of [UserChecker]. *)
Variable type_of : pyobj -> ty.
Variable user_check :
  nat -> pyobj -> TypeVarNamespace -> heap ->
  result (pyobj * TypeVarNamespace * heap).

Definition isinstance (value cls : pyobj) : result bool :=
  match cls with
  | PyClass c => Ok (issubclass (type_of value) c)
  | _ => Raise TypeError
  end.

Definition is_no_value (value : pyobj) : bool :=
  match value with
  | PyNoValue => true
  | _ => false
  end.

Definition is_None (value : pyobj) : bool :=
  match value with
  | PyNone => true
  | _ => false
  end.

(** [self.check(value, namespace)], dispatched on the class of [self]; an
    object without a [check] method raises [AttributeError]. *)
Fixpoint check (self value : pyobj) (namespace : TypeVarNamespace) (h : heap)
    : result (pyobj * TypeVarNamespace * heap) :=
  match self with
  | TypeChecker _cls =>
      match isinstance value _cls with
      | Ok b => Ok (PyBool b, namespace, h)
      | Raise e => Raise e
      end
  | optional _check =>
      if is_no_value value then Ok (PyBool true, namespace, h)
      else if is_None value then Ok (PyBool true, namespace, h)
      else check _check value namespace h
  | UserChecker n => user_check n value namespace h
  | _ => Raise AttributeError
  end.

(** The call scope of a namespace holds no type variable that [bind] routes
    to the instance. *)
Definition call_scope_routed (self : TypeVarNamespace) : Prop :=
  forall typevar : TypeVar,
    is_Some (_ns self !! tv_id typevar) -> is_generic_in self typevar = false.

(** [Checker.__call__]. *)
Definition Checker__call__ (self value : pyobj) (namespace : TypeVarNamespace)
    (h : heap) : result (pyobj * TypeVarNamespace * heap) :=
  check self value namespace h.

End Framework.

Arguments TypeVar : clear implicits.
Arguments pyobj : clear implicits.
Arguments instance : clear implicits.
Arguments obj_state : clear implicits.
Arguments store_ref : clear implicits.
Arguments heap : clear implicits.
Arguments TypeVarNamespace : clear implicits.
Arguments entry : clear implicits.

(** ** A small class hierarchy to run the code on *)

Module Builtins.

Inductive pyclass :=
| cls_object | cls_Number | cls_int | cls_bool | cls_float | cls_str | cls_NoneType
| cls_type.

#[export] Instance pyclass_eq_dec : EqDecision pyclass.
Proof. solve_decision. Defined.

(** The classes [c] is a subclass of, itself first ([numbers.Number] has
    [int], [bool] and [float] as registered subclasses). *)
Definition superclasses (c : pyclass) : list pyclass :=
  match c with
  | cls_object => [cls_object]
  | cls_Number => [cls_Number; cls_object]
  | cls_int => [cls_int; cls_Number; cls_object]
  | cls_bool => [cls_bool; cls_int; cls_Number; cls_object]
  | cls_float => [cls_float; cls_Number; cls_object]
  | cls_str => [cls_str; cls_object]
  | cls_NoneType => [cls_NoneType; cls_object]
  | cls_type => [cls_type; cls_object]
  end.

Definition issubclass (c d : pyclass) : bool :=
  bool_decide (d ∈ superclasses c).

(** [type(x)], up to the classes of this hierarchy: the class of any
    other object has [object] as its only superclass here. *)
Definition type_of (x : pyobj pyclass) : pyclass :=
  match x with
  | PyNone => cls_NoneType
  | PyBool _ => cls_bool
  | PyClass _ => cls_type
  | PyObject _ c => c
  | _ => cls_object
  end.

(** No client-defined checker classes. *)
Definition user_check (n : nat) (value : pyobj pyclass)
    (namespace : TypeVarNamespace pyclass) (h : heap pyclass)
    : result (pyobj pyclass * TypeVarNamespace pyclass * heap pyclass) :=
  Raise (UserError n).

Definition empty_heap : heap pyclass :=
  {| h_dicts := ∅; h_attr := ∅; h_objs := ∅ |}.

(** [T = TypeVar('T')] and [U = TypeVar('U', bound=Number, covariant=True)],
    [V = TypeVar('V', bound=Number)]. *)
Definition tv_T : TypeVar pyclass :=
  {| tv_id := 1; __bound__ := None; __covariant__ := false;
     __contravariant__ := false |}.
Definition tv_U : TypeVar pyclass :=
  {| tv_id := 2; __bound__ := Some cls_Number; __covariant__ := true;
     __contravariant__ := false |}.
Definition tv_V : TypeVar pyclass :=
  {| tv_id := 3; __bound__ := Some cls_Number; __covariant__ := false;
     __contravariant__ := false |}.

(** An instance of a generic class with parameter [T]. *)
Definition generic_obj : instance pyclass :=
  {| inst_id := 7; inst_GenericMeta := true; __parameters__ := [tv_T] |}.

(** An instance of a generic class with parameters [T] and [V]. *)
Definition generic_pair_obj : instance pyclass :=
  {| inst_id := 9; inst_GenericMeta := true; __parameters__ := [tv_T; tv_V] |}.

(** [W = TypeVar('W', contravariant=True)]. *)
Definition tv_W : TypeVar pyclass :=
  {| tv_id := 4; __bound__ := None; __covariant__ := false;
     __contravariant__ := true |}.

(** A stack: an instance of a generic class with parameter [T] whose class
    defines [__len__] and nothing else of the container protocol. *)
Definition stack_obj : instance pyclass :=
  {| inst_id := 11; inst_GenericMeta := true; __parameters__ := [tv_T] |}.

(** Heaps in which the stack is empty, and holds one item. *)
Definition heap_empty_stack : heap pyclass :=
  {| h_dicts := ∅; h_attr := ∅; h_objs := {[ inst_id stack_obj := Sized 0 false ]} |}.

Definition heap_filled_stack : heap pyclass :=
  {| h_dicts := ∅; h_attr := ∅; h_objs := {[ inst_id stack_obj := Sized 1 false ]} |}.

End Builtins.

(** * Properties *)

Section NamespaceFacts.

Context {ty : Type} `{EqDecision ty}.
Variable issubclass : ty -> ty -> bool.

Implicit Types (self ns other : TypeVarNamespace ty) (v w typevar : TypeVar ty).
Implicit Types (h : heap ty) (T B U S : ty) (I : instance ty).

(** *** Heap dictionaries *)

Lemma dict_at_setitem l v T h :
  dict_at (dict_setitem l v T h) l = <[tv_id v := T]> (dict_at h l).
Proof.
  unfold dict_at at 1, dict_setitem; simpl.
  by rewrite lookup_insert_eq.
Qed.

Lemma truthy_dict_lookup h l k T :
  dict_at h l !! k = Some T -> truthy h (PyDict l) = true.
Proof.
  intros Hk; simpl.
  rewrite bool_decide_eq_false_2; [done|].
  intros He; rewrite He in Hk; by rewrite lookup_empty in Hk.
Qed.

Lemma setattr_new_dict_attr I h :
  h_attr (setattr_new_dict I h).2 !! inst_id I = Some (setattr_new_dict I h).1.
Proof. unfold setattr_new_dict; simpl. by rewrite lookup_insert_eq. Qed.

Lemma dict_at_fresh h : dict_at h (fresh (dom (h_dicts h))) = ∅.
Proof.
  unfold dict_at.
  rewrite (proj1 (not_elem_of_dom (h_dicts h) _)); [done|]. apply is_fresh.
Qed.

(** *** Lookups *)

(** What [binding_of] returns, by the place the namespace looks in.  An
    empty store answers every lookup with nothing, so the truth test in
    front of the lookup only matters for an instance that cannot be
    searched. *)
Lemma binding_of_lookup ns v h :
  binding_of ns v h =
    match _ns ns !! tv_id v with
    | Some t => Ok (Some t)
    | None =>
        match _instance_ns ns with
        | None => Ok None
        | Some (StoreDict l) => Ok (dict_at h l !! tv_id v)
        | Some (StoreInstance i) =>
            match obj_at h i with
            | Plain => Raise TypeError
            | Sized n iterable =>
                if n =? 0 then Ok None
                else if iterable then Ok None else Raise TypeError
            | Mapping items _ => Ok (items !! tv_id v)
            end
        end
    end.
Proof.
  unfold binding_of. destruct (_ns ns !! tv_id v); [done|].
  destruct (_instance_ns ns) as [[l|i]|]; [| |done].
  - destruct (truthy h (PyDict l)) eqn:Ht; [done|].
    simpl in Ht. apply negb_false_iff, bool_decide_eq_true in Ht.
    by rewrite Ht, lookup_empty.
  - unfold truthy, inst_truthy, inst_contains, inst_getitem.
    destruct (obj_at h i) as [|n iterable|items others]; [done| |].
    + by destruct (n =? 0), iterable.
    + destruct (items !! tv_id v) as [t|] eqn:Hi.
      * repeat case_bool_decide; simpl; try done.
        -- subst items. by rewrite lookup_empty in Hi.
        -- exfalso; eauto.
        -- exfalso; eauto.
      * rewrite (bool_decide_eq_false_2 (is_Some None))
          by (intros []; discriminate).
        by destruct (negb (bool_decide (items = ∅)) || negb (others =? 0)).
Qed.

Lemma binding_of_call_scope ns v h T :
  _ns ns !! tv_id v = Some T -> binding_of ns v h = Ok (Some T).
Proof. intros Hns; unfold binding_of; by rewrite Hns. Qed.

Lemma binding_of_instance_scope ns v h l T :
  _ns ns !! tv_id v = None -> _instance_ns ns = Some (StoreDict l) ->
  dict_at h l !! tv_id v = Some T -> binding_of ns v h = Ok (Some T).
Proof.
  intros Hns Hl Hd. rewrite binding_of_lookup. by rewrite Hns, Hl, Hd.
Qed.

Lemma binding_of_no_call_scope ns v h :
  (forall T, binding_of ns v h <> Ok (Some T)) -> _ns ns !! tv_id v = None.
Proof.
  intros Hb. destruct (_ns ns !! tv_id v) as [t|] eqn:Hns; [|done].
  destruct (Hb t). by apply binding_of_call_scope.
Qed.

Lemma binding_of_None_call_scope ns v h :
  binding_of ns v h = Ok None -> _ns ns !! tv_id v = None.
Proof.
  intros Hb. apply (binding_of_no_call_scope ns v h).
  intros T. rewrite Hb. discriminate.
Qed.

Lemma is_bound_instance_scope ns v h l T :
  _ns ns !! tv_id v = None -> _instance_ns ns = Some (StoreDict l) ->
  dict_at h l !! tv_id v = Some T -> is_bound ns v h = Ok (PyBool true).
Proof.
  intros Hns Hl Hd; unfold is_bound.
  rewrite Hns, Hl, (truthy_dict_lookup _ _ _ _ Hd), Hd.
  rewrite bool_decide_eq_false_2 by (intros []; discriminate).
  by rewrite bool_decide_eq_true_2 by eauto.
Qed.

(** [is_bound] and [binding_of] raise together, and otherwise [is_bound]
    is truthy exactly when [binding_of] returns a type. *)
Lemma is_bound_binding_of ns v h :
  match is_bound ns v h, binding_of ns v h with
  | Ok x, Ok b => truthy h x = true <-> is_Some b
  | Raise e, Raise e' => e = e'
  | _, _ => False
  end.
Proof.
  unfold is_bound, binding_of.
  destruct (_ns ns !! tv_id v) as [t|] eqn:Hns.
  { rewrite bool_decide_eq_true_2 by eauto. simpl; split; eauto. }
  rewrite bool_decide_eq_false_2 by (intros []; discriminate).
  destruct (_instance_ns ns) as [[l|i]|].
  - destruct (truthy h (PyDict l)) eqn:Ht.
    + simpl. rewrite bool_decide_eq_true. tauto.
    + rewrite Ht. split; [discriminate | intros []; discriminate].
  - destruct (truthy h (PyInstance i)) eqn:Ht.
    + unfold inst_contains, inst_getitem.
      destruct (obj_at h i) as [|n iterable|items others]; [done| |].
      * destruct iterable; [|done]. simpl.
        split; [discriminate | intros []; discriminate].
      * destruct (items !! tv_id v) as [t|] eqn:Hi.
        -- rewrite bool_decide_eq_true_2 by eauto. simpl. split; eauto.
        -- rewrite bool_decide_eq_false_2 by (intros []; discriminate).
           simpl. split; [discriminate | intros []; discriminate].
    + rewrite Ht. split; [discriminate | intros []; discriminate].
  - simpl. split; [discriminate | intros []; discriminate].
Qed.

(** *** bind *)

Lemma bind_call_scope ns v T h :
  is_generic_in ns v = false ->
  bind ns v T h =
    Ok ({| _ns := <[tv_id v := T]> (_ns ns); _instance := _instance ns;
           _instance_ns := _instance_ns ns |}, h).
Proof. intros Hg; unfold bind; by rewrite Hg. Qed.

Lemma is_generic_in_instance ns v :
  is_generic_in ns v = true ->
  exists I, _instance ns = Some I /\ inst_GenericMeta I = true /\
            typevar_in v (__parameters__ I) = true.
Proof.
  unfold is_generic_in. destruct (_instance ns) as [I|]; [|discriminate].
  destruct (inst_GenericMeta I) eqn:HG; simpl; [|discriminate].
  intros Hin. by exists I.
Qed.

Lemma is_generic_in_identity ns v w :
  tv_id w = tv_id v -> is_generic_in ns w = is_generic_in ns v.
Proof.
  intros Hid. unfold is_generic_in, typevar_in. by rewrite Hid.
Qed.

(** The heap after [bind_to_instance] had to create the store. *)
Lemma bind_to_instance_new ns v T h I :
  _instance ns = Some I -> _instance_ns ns = None ->
  bind_to_instance ns v T h =
    Ok ({| _ns := _ns ns; _instance := Some I;
           _instance_ns := Some (StoreDict (fresh (dom (h_dicts h)))) |},
        {| h_dicts := <[fresh (dom (h_dicts h)) := {[tv_id v := T]}]> (h_dicts h);
           h_attr := <[inst_id I := fresh (dom (h_dicts h))]> (h_attr h);
           h_objs := h_objs h |}).
Proof.
  intros HI Hl. unfold bind_to_instance, setattr_new_dict. rewrite Hl, HI.
  cbv zeta. unfold dict_setitem, dict_at; simpl.
  rewrite !lookup_insert_eq; simpl.
  by rewrite insert_insert_eq, insert_empty.
Qed.

(** The four ways a [bind] ends without an exception: in the call scope,
    in the store the namespace holds, in a store it creates, or in the
    instance itself. *)
Lemma bind_cases ns v T h ns' h' :
  bind ns v T h = Ok (ns', h') ->
  (is_generic_in ns v = false /\
   ns' = {| _ns := <[tv_id v := T]> (_ns ns); _instance := _instance ns;
            _instance_ns := _instance_ns ns |} /\
   h' = h) \/
  (is_generic_in ns v = true /\
   exists l, _instance_ns ns = Some (StoreDict l) /\ ns' = ns /\
             h' = dict_setitem l v T h) \/
  (is_generic_in ns v = true /\
   exists I, _instance ns = Some I /\ _instance_ns ns = None /\
     ns' = {| _ns := _ns ns; _instance := Some I;
              _instance_ns := Some (StoreDict (fresh (dom (h_dicts h)))) |} /\
     h' = {| h_dicts := <[fresh (dom (h_dicts h)) := {[tv_id v := T]}]>
                          (h_dicts h);
             h_attr := <[inst_id I := fresh (dom (h_dicts h))]> (h_attr h);
             h_objs := h_objs h |}) \/
  (is_generic_in ns v = true /\
   exists i items others,
     _instance_ns ns = Some (StoreInstance i) /\
     obj_at h i = Mapping items others /\ ns' = ns /\
     h' = {| h_dicts := h_dicts h; h_attr := h_attr h;
             h_objs := <[inst_id i := Mapping (<[tv_id v := T]> items) others]>
                         (h_objs h) |}).
Proof.
  unfold bind. destruct (is_generic_in ns v) eqn:Hg.
  - destruct (is_generic_in_instance _ _ Hg) as (I & HI & _ & _).
    destruct (_instance_ns ns) as [[l|i]|] eqn:Hl.
    + unfold bind_to_instance. rewrite Hl. intros [= <- <-].
      right; left. split; [done|]. by exists l.
    + unfold bind_to_instance, inst_setitem. rewrite Hl.
      destruct (obj_at h i) as [|n iterable|items others] eqn:Ho;
        try discriminate.
      intros [= <- <-]. right; right; right. split; [done|].
      by exists i, items, others.
    + rewrite (bind_to_instance_new ns v T h I HI Hl). intros [= <- <-].
      right; right; left. split; [done|]. by exists I.
  - intros [= <- <-]. by left.
Qed.

(** [bind] succeeds unless the store reference is the instance. *)
Lemma bind_total ns v T h :
  (forall i, _instance_ns ns <> Some (StoreInstance i)) ->
  exists ns' h', bind ns v T h = Ok (ns', h').
Proof.
  intros Href. unfold bind. destruct (is_generic_in ns v) eqn:Hg; [|eauto].
  destruct (is_generic_in_instance _ _ Hg) as (I & HI & _ & _).
  destruct (_instance_ns ns) as [[l|i]|] eqn:Hl.
  - unfold bind_to_instance. rewrite Hl. eauto.
  - by destruct (Href i).
  - rewrite (bind_to_instance_new ns v T h I HI Hl). eauto.
Qed.

Lemma bind_keeps_instance ns v T h ns' h' :
  bind ns v T h = Ok (ns', h') -> _instance ns' = _instance ns.
Proof.
  intros Hb.
  destruct (bind_cases _ _ _ _ _ _ Hb)
    as [(_ & -> & _) | [(_ & l0 & _ & -> & _) |
        [(_ & I & HI & _ & -> & _) | (_ & i & items & others & _ & _ & -> & _)]]];
    simpl; congruence.
Qed.

(** *** is_compatible *)

(** With a binding in place the call is a pure read: the answer is the
    bound check on the binding followed by the variance comparison. *)
Lemma is_compatible_bound ns v B T h :
  binding_of ns v h = Ok (Some B) ->
  is_compatible issubclass ns v T h =
    Ok (match __bound__ v with
        | Some U => issubclass B U
        | None => true
        end &&
        (if __covariant__ v then issubclass T B
         else if __contravariant__ v then issubclass B T
         else bool_decide (B = T)), ns, h).
Proof.
  intros Hb. unfold is_compatible. rewrite Hb.
  destruct (__bound__ v) as [U|]; [destruct (issubclass B U)|]; simpl;
    try done; by destruct (__covariant__ v), (__contravariant__ v).
Qed.

(** Without one the call is a [bind]. *)
Lemma is_compatible_unbound ns v T h :
  binding_of ns v h = Ok None ->
  is_compatible issubclass ns v T h =
    match bind ns v T h with
    | Ok (ns', h') => Ok (true, ns', h')
    | Raise e => Raise e
    end.
Proof. intros Hb. unfold is_compatible. by rewrite Hb. Qed.

(** What [is_compatible] does to the namespace and the heap. *)
Lemma is_compatible_cases ns v T h r ns' h' :
  is_compatible issubclass ns v T h = Ok (r, ns', h') ->
  (ns' = ns /\ h' = h /\ exists B, binding_of ns v h = Ok (Some B)) \/
  (binding_of ns v h = Ok None /\ r = true /\ bind ns v T h = Ok (ns', h')).
Proof.
  destruct (binding_of ns v h) as [[B|]|e] eqn:Hb.
  - rewrite (is_compatible_bound ns v B T h Hb).
    intros [= _ <- <-]. left. eauto.
  - rewrite (is_compatible_unbound ns v T h Hb).
    destruct (bind ns v T h) as [[ns1 h1]|e] eqn:Hbind; [|discriminate].
    intros [= <- <- <-]. by right.
  - unfold is_compatible. rewrite Hb. discriminate.
Qed.

(** *** What a bind leaves alone *)

(** A [bind] of [v] leaves every other key of every store as it was. *)
Lemma bind_dict_frame ns v T h ns' h' l k :
  bind ns v T h = Ok (ns', h') -> k <> tv_id v ->
  dict_at h' l !! k = dict_at h l !! k.
Proof.
  intros Hb Hk.
  destruct (bind_cases _ _ _ _ _ _ Hb)
    as [(_ & _ & ->) | [(_ & l0 & _ & _ & ->) |
        [(_ & I & _ & _ & _ & ->) | (_ & i & items & others & _ & _ & _ & ->)]]].
  - done.
  - destruct (decide (l = l0)) as [->|Hne].
    + by rewrite dict_at_setitem, lookup_insert_ne.
    + unfold dict_at, dict_setitem; simpl. by rewrite lookup_insert_ne.
  - destruct (decide (l = fresh (dom (h_dicts h)))) as [->|Hne].
    + rewrite dict_at_fresh, lookup_empty.
      unfold dict_at; simpl. rewrite lookup_insert_eq; simpl.
      by rewrite lookup_singleton_ne.
    + unfold dict_at; simpl. by rewrite lookup_insert_ne.
  - done.
Qed.

(** A [bind] of [v] leaves the instances as containers alone, up to the
    entry of [v] in a dict-like instance. *)
Lemma bind_obj_frame ns v T h ns' h' j :
  bind ns v T h = Ok (ns', h') ->
  obj_at h' j = obj_at h j \/
  exists items others,
    obj_at h j = Mapping items others /\
    obj_at h' j = Mapping (<[tv_id v := T]> items) others.
Proof.
  intros Hb.
  destruct (bind_cases _ _ _ _ _ _ Hb)
    as [(_ & _ & ->) | [(_ & l0 & _ & _ & ->) |
        [(_ & I & _ & _ & _ & ->) | (_ & i & items & others & _ & Ho & _ & ->)]]];
    try (by left).
  unfold obj_at in *; simpl.
  destruct (decide (inst_id j = inst_id i)) as [Heq|Hne].
  - right. exists items, others. rewrite Heq, lookup_insert_eq. by split.
  - left. by rewrite lookup_insert_ne.
Qed.

(** What any namespace reports for [w] is not changed by a [bind] of
    another variable. *)
Lemma bind_frame_other ns v w T h ns' h' other :
  tv_id w <> tv_id v -> bind ns v T h = Ok (ns', h') ->
  binding_of other w h' = binding_of other w h.
Proof.
  intros Hne Hb. rewrite !binding_of_lookup.
  destruct (_ns other !! tv_id w); [done|].
  destruct (_instance_ns other) as [[l|j]|]; [| |done].
  - by rewrite (bind_dict_frame ns v T h ns' h').
  - destruct (bind_obj_frame ns v T h ns' h' j Hb)
      as [-> | (items & others & -> & ->)]; [done|].
    by rewrite lookup_insert_ne.
Qed.

Lemma bind_frame_self ns v w T h ns' h' :
  tv_id w <> tv_id v -> bind ns v T h = Ok (ns', h') ->
  binding_of ns' w h' = binding_of ns w h.
Proof.
  intros Hne Hb.
  destruct (bind_cases _ _ _ _ _ _ Hb)
    as [(_ & -> & ->) | [(_ & l0 & _ & -> & _) |
        [(_ & I & _ & Hl & -> & Hh) | (_ & i & items & others & _ & _ & -> & _)]]].
  - rewrite !binding_of_lookup; simpl. by rewrite lookup_insert_ne.
  - by apply (bind_frame_other ns v w T h ns).
  - rewrite !binding_of_lookup; simpl. rewrite Hl.
    destruct (_ns ns !! tv_id w); [done|].
    rewrite (bind_dict_frame ns v T h _ h' _ _ Hb Hne).
    by rewrite dict_at_fresh, lookup_empty.
  - by apply (bind_frame_other ns v w T h ns).
Qed.

(** *** The routing invariant and the round trip *)

Lemma bind_keeps_call_scope_routed ns v T h ns' h' :
  call_scope_routed ns -> bind ns v T h = Ok (ns', h') ->
  call_scope_routed ns'.
Proof.
  intros Hinv Hb w Hw.
  assert (Hg : is_generic_in ns' w = is_generic_in ns w).
  { unfold is_generic_in. by rewrite (bind_keeps_instance _ _ _ _ _ _ Hb). }
  rewrite Hg.
  destruct (bind_cases _ _ _ _ _ _ Hb)
    as [(Hcall & -> & _) | [(_ & l0 & _ & -> & _) |
        [(_ & I & _ & _ & -> & _) | (_ & i & items & others & _ & _ & -> & _)]]].
  - simpl in Hw. destruct (decide (tv_id w = tv_id v)) as [Heq|Hne].
    + by rewrite (is_generic_in_identity ns v w Heq).
    + rewrite lookup_insert_ne in Hw by done. by apply Hinv.
  - by apply Hinv.
  - by apply Hinv.
  - by apply Hinv.
Qed.

Lemma bind_round_trip ns v T h ns' h' :
  call_scope_routed ns -> bind ns v T h = Ok (ns', h') ->
  binding_of ns' v h' = Ok (Some T).
Proof.
  intros Hinv Hb.
  assert (Hns : is_generic_in ns v = true -> _ns ns !! tv_id v = None).
  { intros Hg. destruct (_ns ns !! tv_id v) eqn:Hv; [|done].
    rewrite (Hinv v) in Hg by eauto. discriminate. }
  destruct (bind_cases _ _ _ _ _ _ Hb)
    as [(_ & -> & _) | [(Hg & l0 & Hl & -> & ->) |
        [(Hg & I & _ & _ & -> & ->) |
         (Hg & i & items & others & Hl & Ho & -> & ->)]]].
  - apply binding_of_call_scope; simpl. by rewrite lookup_insert_eq.
  - apply (binding_of_instance_scope _ _ _ l0); [by apply Hns|done|].
    by rewrite dict_at_setitem, lookup_insert_eq.
  - apply (binding_of_instance_scope _ _ _ (fresh (dom (h_dicts h))));
      simpl; [by apply Hns|done|].
    unfold dict_at; simpl. rewrite lookup_insert_eq; simpl.
    by rewrite lookup_singleton_eq.
  - rewrite binding_of_lookup, (Hns Hg), Hl.
    unfold obj_at; simpl. rewrite lookup_insert_eq; simpl.
    by rewrite lookup_insert_eq.
Qed.

End NamespaceFacts.

(** ** The compatibility check *)

Import Builtins.

(** Claim C1.  The upper-bound check of [is_compatible] is made on the
    binding that already exists, not on the observed type: when the type
    variable has a binding [B] and a bound [U], a binding that is not a
    subclass of [U] makes the call return [False] whatever the observed type
    [T] is, and a binding that is a subclass of [U] lets the call go on to
    the variance comparison of [T] with [B].  So for the covariant [U]
    bounded by [Number] and bound to [int] by a direct [bind],
    [is_compatible(U, Number)] returns [False]: [int] satisfies the bound
    and [Number] is not a subclass of [int]. *)
Theorem is_compatible_bound_check_on_binding :
  (forall (ty : Type) `(EqDecision ty) (issubclass : ty -> ty -> bool)
          (ns : TypeVarNamespace ty) (v : TypeVar ty) (B U T : ty)
          (h : heap ty),
      binding_of ns v h = Ok (Some B) ->
      __bound__ v = Some U ->
      (issubclass B U = false ->
       is_compatible issubclass ns v T h = Ok (false, ns, h)) /\
      (issubclass B U = true ->
       is_compatible issubclass ns v T h =
         Ok (if __covariant__ v then issubclass T B
             else if __contravariant__ v then issubclass B T
             else bool_decide (B = T), ns, h))) /\
  (exists ns1 h1,
      bind (TypeVarNamespace__init__ None empty_heap) tv_U cls_int empty_heap
        = Ok (ns1, h1) /\
      binding_of ns1 tv_U h1 = Ok (Some cls_int) /\
      issubclass cls_int cls_Number = true /\
      issubclass cls_Number cls_int = false /\
      is_compatible issubclass ns1 tv_U cls_Number h1 = Ok (false, ns1, h1)).
Proof.
  split.
  - intros ty Heq sub ns v B U T h Hb HU.
    rewrite (is_compatible_bound sub ns v B T h Hb), HU.
    split; intros ->; reflexivity.
  - eexists _, _. split; [reflexivity|]. by vm_compute.
Qed.

Lemma is_compatible_bound_check_on_binding_witness :
  let ns := {| _ns := {[ tv_id tv_V := cls_str ]}; _instance := None;
               _instance_ns := None |} in
  binding_of ns tv_V empty_heap = Ok (Some cls_str) /\
  __bound__ tv_V = Some cls_Number /\
  issubclass cls_str cls_Number = false /\
  is_compatible issubclass ns tv_V cls_int empty_heap
    = Ok (false, ns, empty_heap).
Proof.
  intros ns.
  assert (Hb : binding_of ns tv_V empty_heap = Ok (Some cls_str)) by reflexivity.
  assert (HU : __bound__ tv_V = Some cls_Number) by reflexivity.
  assert (Hs : issubclass cls_str cls_Number = false) by reflexivity.
  split; [exact Hb|]. split; [exact HU|]. split; [exact Hs|].
  exact (proj1 (proj1 is_compatible_bound_check_on_binding pyclass _
                  issubclass ns tv_V cls_str cls_Number cls_int empty_heap
                  Hb HU) Hs).
Defined.

(** A namespace as constructed has an empty call scope. *)
Lemma init_call_scope_routed {ty : Type} `{EqDecision ty}
    (inst : option (instance ty)) (h : heap ty) :
  call_scope_routed (TypeVarNamespace__init__ inst h).
Proof.
  intros w Hw. simpl in Hw. rewrite lookup_empty in Hw. by destruct Hw.
Qed.

(** Built on a truthy instance, a namespace refers to the store the
    instance holds, if any. *)
Lemma init_truthy {ty : Type} `{EqDecision ty} (I : instance ty) (h : heap ty) :
  inst_truthy h I = true ->
  _instance_ns (TypeVarNamespace__init__ (Some I) h)
  = StoreDict <$> h_attr h !! inst_id I.
Proof. intros Ht. simpl. by rewrite Ht. Qed.

(** Built on a falsy instance, it refers to the instance. *)
Lemma init_falsy {ty : Type} `{EqDecision ty} (I : instance ty) (h : heap ty) :
  inst_truthy h I = false ->
  _instance_ns (TypeVarNamespace__init__ (Some I) h) = Some (StoreInstance I).
Proof. intros Ht. simpl. by rewrite Ht. Qed.

(** Claim C2.  On a freshly constructed namespace in which [v] is unbound,
    [is_compatible(v, T)] returns [True] and [binding_of(v)] is [T]
    afterwards, for every [v] and every [T], whatever the bound of [v],
    when the namespace was built without an instance or on a truthy one, or
    [v] is not a parameter of the instance's class.  Built on an empty
    stack, whose class defines [__len__] only, the same call for the
    parameter [T] of the stack's class raises [TypeError]. *)
Theorem first_is_compatible_binds :
  (forall (ty : Type) `(EqDecision ty) (issubclass : ty -> ty -> bool)
          (inst : option (instance ty)) (h : heap ty) (v : TypeVar ty) (T : ty),
      let ns := TypeVarNamespace__init__ inst h in
      binding_of ns v h = Ok None ->
      (forall I, inst = Some I ->
                 inst_truthy h I = true \/ is_generic_in ns v = false) ->
      exists ns' h',
        is_compatible issubclass ns v T h = Ok (true, ns', h') /\
        binding_of ns' v h' = Ok (Some T)) /\
  (let ns := TypeVarNamespace__init__ (Some stack_obj) heap_empty_stack in
   inst_truthy heap_empty_stack stack_obj = false /\
   is_generic_in ns tv_T = true /\
   binding_of ns tv_T heap_empty_stack = Ok None /\
   is_compatible issubclass ns tv_T cls_int heap_empty_stack = Raise TypeError).
Proof.
  split; [|by vm_compute].
  intros ty Heq sub inst h v T ns Hb Hinst.
  rewrite (is_compatible_unbound sub ns v T h Hb).
  assert (Hbind : exists ns' h', bind ns v T h = Ok (ns', h')).
  { destruct inst as [I|].
    - destruct (Hinst I eq_refl) as [Ht|Hg].
      + apply bind_total. intros i. unfold ns.
        rewrite (init_truthy I h Ht). by destruct (h_attr h !! inst_id I).
      + rewrite (bind_call_scope ns v T h Hg). eauto.
    - apply bind_total. intros i. discriminate. }
  destruct Hbind as (ns' & h' & Hbind). rewrite Hbind.
  exists ns', h'. split; [done|].
  apply (bind_round_trip ns v T h ns' h'); [|done].
  apply init_call_scope_routed.
Qed.

Lemma first_is_compatible_binds_witness :
  binding_of (TypeVarNamespace__init__ None empty_heap) tv_V empty_heap
    = Ok None /\
  issubclass cls_str cls_Number = false /\
  exists ns' h',
    is_compatible issubclass (TypeVarNamespace__init__ None empty_heap)
      tv_V cls_str empty_heap = Ok (true, ns', h') /\
    binding_of ns' tv_V h' = Ok (Some cls_str).
Proof.
  split; [reflexivity|]. split; [reflexivity|].
  apply (proj1 first_is_compatible_binds pyclass _ issubclass None empty_heap
           tv_V cls_str).
  - reflexivity.
  - intros I HI. discriminate HI.
Defined.

(** Claim C3.  When [v] is already bound to [B], a call
    [is_compatible(v, T)] returns and leaves the namespace and the heap as
    they were, so [binding_of(v)] is still [B], also when the call returns
    [False]; a call that does change the namespace or the heap started with
    [v] unbound. *)
Theorem is_compatible_keeps_binding :
  forall (ty : Type) `(EqDecision ty) (issubclass : ty -> ty -> bool)
         (ns : TypeVarNamespace ty) (v : TypeVar ty) (B T : ty) (h : heap ty),
    binding_of ns v h = Ok (Some B) ->
    (exists r, is_compatible issubclass ns v T h = Ok (r, ns, h)) /\
    (forall r ns' h',
        is_compatible issubclass ns v T h = Ok (r, ns', h') ->
        binding_of ns' v h' = Ok (Some B)) /\
    (forall (w : TypeVar ty) r ns' h',
        is_compatible issubclass ns w T h = Ok (r, ns', h') ->
        (ns', h') <> (ns, h) -> binding_of ns w h = Ok None).
Proof.
  intros ty Heq sub ns v B T h Hb.
  pose proof (is_compatible_bound sub ns v B T h Hb) as Hc.
  split; [eauto|]. split.
  - intros r ns' h' Hr. rewrite Hc in Hr. by injection Hr as _ <- <-.
  - intros w r ns' h' Hr Hne.
    destruct (is_compatible_cases sub _ _ _ _ _ _ _ Hr)
      as [(-> & -> & _) | (Hw & _ & _)]; [by destruct Hne|done].
Qed.

Lemma is_compatible_keeps_binding_witness :
  exists ns1 h1,
    is_compatible issubclass (TypeVarNamespace__init__ None empty_heap)
      tv_T cls_int empty_heap = Ok (true, ns1, h1) /\
    binding_of ns1 tv_T h1 = Ok (Some cls_int) /\
    is_compatible issubclass ns1 tv_T cls_str h1 = Ok (false, ns1, h1) /\
    (forall r ns' h',
        is_compatible issubclass ns1 tv_T cls_str h1 = Ok (r, ns', h') ->
        binding_of ns' tv_T h' = Ok (Some cls_int)).
Proof.
  eexists _, _. split; [reflexivity|].
  split; [reflexivity|]. split; [reflexivity|].
  refine (proj1 (proj2 (is_compatible_keeps_binding pyclass _ issubclass
                          _ tv_T cls_int cls_str _ _))).
  reflexivity.
Defined.

(** Against claim C5 as stated.  The bound check comes before the variance
    comparison, so a binding that violates the bound of an invariant type
    variable is not even compatible with itself: [V] is invariant and
    bounded by [Number]; the first check binds it to [str]; the second
    check of [str] returns [False]. *)
Lemma invariant_same_type_rejected :
  exists ns h,
    is_compatible issubclass (TypeVarNamespace__init__ None empty_heap)
      tv_V cls_str empty_heap = Ok (true, ns, h) /\
    __covariant__ tv_V = false /\ __contravariant__ tv_V = false /\
    binding_of ns tv_V h = Ok (Some cls_str) /\
    is_compatible issubclass ns tv_V cls_str h = Ok (false, ns, h).
Proof. eexists _, _. split; [reflexivity|]. by vm_compute. Qed.

(** Claim C5, amended.  For an invariant [v] bound to [T]:
    [is_compatible(v, T)] returns [True] when [v] declares no bound or [T]
    is a subclass of the bound, and [False] when [T] is not a subclass of
    the bound; [is_compatible(v, U)] returns [False] for every [U] other
    than [T]. *)
Theorem invariant_is_compatible :
  forall (ty : Type) `(EqDecision ty) (issubclass : ty -> ty -> bool)
         (ns : TypeVarNamespace ty) (v : TypeVar ty) (T : ty) (h : heap ty),
    __covariant__ v = false ->
    __contravariant__ v = false ->
    binding_of ns v h = Ok (Some T) ->
    ((forall U, __bound__ v = Some U -> issubclass T U = true) ->
     is_compatible issubclass ns v T h = Ok (true, ns, h)) /\
    (forall U, __bound__ v = Some U -> issubclass T U = false ->
     is_compatible issubclass ns v T h = Ok (false, ns, h)) /\
    (forall U, U <> T ->
     is_compatible issubclass ns v U h = Ok (false, ns, h)).
Proof.
  intros ty Heq sub ns v T h Hco Hcontra Hb.
  split; [|split].
  - intros Hok. rewrite (is_compatible_bound sub ns v T T h Hb), Hco, Hcontra.
    rewrite bool_decide_eq_true_2 by done.
    destruct (__bound__ v) as [U|]; [|done]. by rewrite (Hok U).
  - intros U HU Hsub.
    by rewrite (is_compatible_bound sub ns v T T h Hb), HU, Hsub.
  - intros U Hne.
    rewrite (is_compatible_bound sub ns v T U h Hb), Hco, Hcontra.
    rewrite bool_decide_eq_false_2 by done. by rewrite andb_false_r.
Qed.

Lemma invariant_is_compatible_witness :
  let ns := {| _ns := {[ tv_id tv_V := cls_int ]}; _instance := None;
               _instance_ns := None |} in
  is_compatible issubclass ns tv_V cls_int empty_heap = Ok (true, ns, empty_heap) /\
  is_compatible issubclass ns tv_V cls_bool empty_heap = Ok (false, ns, empty_heap) /\
  is_compatible issubclass ns tv_V cls_Number empty_heap = Ok (false, ns, empty_heap).
Proof.
  intros ns.
  destruct (invariant_is_compatible pyclass _ issubclass ns tv_V cls_int
              empty_heap eq_refl eq_refl eq_refl) as (Hsame & _ & Hother).
  split; [|split].
  - apply Hsame. intros U [= <-]. reflexivity.
  - apply Hother. discriminate.
  - apply Hother. discriminate.
Defined.

(** Against claim C6 as stated.  The same happens to a covariant type
    variable: [U] is covariant and
    bounded by [Number]; once bound to [str], the check of [str], a
    subclass of the binding, returns [False]. *)
Lemma covariant_subtype_rejected :
  exists ns h,
    is_compatible issubclass (TypeVarNamespace__init__ None empty_heap)
      tv_U cls_str empty_heap = Ok (true, ns, h) /\
    __covariant__ tv_U = true /\
    binding_of ns tv_U h = Ok (Some cls_str) /\
    issubclass cls_str cls_str = true /\
    is_compatible issubclass ns tv_U cls_str h = Ok (false, ns, h).
Proof. eexists _, _. split; [reflexivity|]. by vm_compute. Qed.

(** Claim C6, amended.  For a covariant [v] bound to [T], where [v]
    declares no bound or [T] is a subclass of the bound,
    [is_compatible(v, S)] returns [True] for every subclass [S] of [T];
    it returns [False] for every [S] that is not a subclass of [T], and
    for every [S] when [T] is not a subclass of the bound. *)
Theorem covariant_is_compatible :
  forall (ty : Type) `(EqDecision ty) (issubclass : ty -> ty -> bool)
         (ns : TypeVarNamespace ty) (v : TypeVar ty) (T : ty) (h : heap ty),
    __covariant__ v = true ->
    binding_of ns v h = Ok (Some T) ->
    ((forall U, __bound__ v = Some U -> issubclass T U = true) ->
     forall S, issubclass S T = true ->
     is_compatible issubclass ns v S h = Ok (true, ns, h)) /\
    (forall S, issubclass S T = false ->
     is_compatible issubclass ns v S h = Ok (false, ns, h)) /\
    (forall U, __bound__ v = Some U -> issubclass T U = false ->
     forall S, is_compatible issubclass ns v S h = Ok (false, ns, h)).
Proof.
  intros ty Heq sub ns v T h Hco Hb.
  split; [|split].
  - intros Hok S HS. rewrite (is_compatible_bound sub ns v T S h Hb), Hco, HS.
    destruct (__bound__ v) as [U|]; [|done]. by rewrite (Hok U).
  - intros S HS. rewrite (is_compatible_bound sub ns v T S h Hb), Hco, HS.
    by rewrite andb_false_r.
  - intros U HU Hsub S.
    by rewrite (is_compatible_bound sub ns v T S h Hb), HU, Hsub.
Qed.

Lemma covariant_is_compatible_witness :
  let ns := {| _ns := {[ tv_id tv_U := cls_int ]}; _instance := None;
               _instance_ns := None |} in
  is_compatible issubclass ns tv_U cls_bool empty_heap = Ok (true, ns, empty_heap) /\
  is_compatible issubclass ns tv_U cls_int empty_heap = Ok (true, ns, empty_heap) /\
  is_compatible issubclass ns tv_U cls_str empty_heap = Ok (false, ns, empty_heap).
Proof.
  intros ns.
  destruct (covariant_is_compatible pyclass _ issubclass ns tv_U cls_int
              empty_heap eq_refl eq_refl) as (Hsub & Hnot & _).
  assert (Hok : forall U, __bound__ tv_U = Some U -> issubclass cls_int U = true)
    by (intros U [= <-]; reflexivity).
  split; [|split].
  - apply (Hsub Hok). reflexivity.
  - apply (Hsub Hok). reflexivity.
  - apply Hnot. reflexivity.
Defined.

(** ** Call scope and instance scope *)

(** Binding a parameter of the generic class of [I] through a namespace
    that holds no store reference, or the store [I] holds now, writes into
    the dict that [I] holds afterwards; the instances as containers are
    left alone. *)
Lemma bind_instance_scope {ty : Type} `{EqDecision ty}
    (ns : TypeVarNamespace ty) (I : instance ty) (v : TypeVar ty) (T : ty)
    (h : heap ty) :
  _instance ns = Some I ->
  inst_GenericMeta I = true ->
  typevar_in v (__parameters__ I) = true ->
  _instance_ns ns = None \/
  _instance_ns ns = StoreDict <$> h_attr h !! inst_id I ->
  exists l h',
    bind ns v T h =
      Ok ({| _ns := _ns ns; _instance := Some I;
             _instance_ns := Some (StoreDict l) |}, h') /\
    h_attr h' !! inst_id I = Some l /\
    dict_at h' l !! tv_id v = Some T /\
    h_objs h' = h_objs h.
Proof.
  intros HI HG Hin Href.
  assert (Hg : is_generic_in ns v = true).
  { unfold is_generic_in. by rewrite HI, HG. }
  unfold bind. rewrite Hg.
  destruct (_instance_ns ns) as [[l|i]|] eqn:Hl.
  - destruct Href as [Href|Href]; [discriminate|].
    destruct (h_attr h !! inst_id I) as [l0|] eqn:Ha; [|discriminate].
    injection Href as ->.
    exists l0, (dict_setitem l0 v T h). unfold bind_to_instance. rewrite Hl.
    split; [|split; [exact Ha|split; [|done]]].
    + destruct ns; simpl in *; by subst.
    + by rewrite dict_at_setitem, lookup_insert_eq.
  - destruct Href as [Href|Href]; [discriminate|].
    by destruct (h_attr h !! inst_id I).
  - rewrite (bind_to_instance_new ns v T h I HI Hl).
    eexists _, _. split; [reflexivity|]. simpl.
    split; [by rewrite lookup_insert_eq|]. split; [|done].
    unfold dict_at; simpl. rewrite lookup_insert_eq; simpl.
    by rewrite lookup_singleton_eq.
Qed.

(** What a namespace just built on a truthy instance with a store
    reports. *)
Lemma binding_of_init {ty : Type} `{EqDecision ty} (I : instance ty)
    (v : TypeVar ty) (h : heap ty) (l : nat) :
  inst_truthy h I = true ->
  h_attr h !! inst_id I = Some l ->
  binding_of (TypeVarNamespace__init__ (Some I) h) v h
  = Ok (dict_at h l !! tv_id v).
Proof.
  intros Ht Ha. rewrite binding_of_lookup, (init_truthy I h Ht); simpl.
  by rewrite lookup_empty, Ha.
Qed.

Lemma inst_truthy_objs {ty : Type} `{EqDecision ty} (I : instance ty)
    (h h' : heap ty) :
  h_objs h' = h_objs h -> inst_truthy h' I = inst_truthy h I.
Proof. intros Ho. unfold inst_truthy, obj_at. by rewrite Ho. Qed.

(** Claim C4.  A type variable among the parameters of the generic class
    of a truthy [I], bound through a namespace built with [instance=I]
    whose store reference is still current, is stored in the dict that [I]
    itself holds, and a second namespace built with [instance=I] afterwards
    finds it with [is_bound] and [binding_of].  A type variable not among
    the parameters of [I] (or any type variable, when the class of [I] is
    not generic) is bound in the call scope of the first namespace only:
    the heap is left as it was and a second namespace built with
    [instance=I] does not see the binding.  Through a namespace built on an
    empty stack, whose class defines [__len__] only, the [bind] of the
    parameter of the stack's class raises [TypeError] and stores nothing. *)
Theorem scope_routing :
  (forall (ty : Type) `(EqDecision ty) (I : instance ty) (v : TypeVar ty)
          (T : ty) (h0 h : heap ty),
      let N1 := TypeVarNamespace__init__ (Some I) h0 in
      (inst_GenericMeta I = true ->
       typevar_in v (__parameters__ I) = true ->
       inst_truthy h0 I = true ->
       inst_truthy h I = true ->
       h_attr h0 !! inst_id I = None \/
       h_attr h !! inst_id I = h_attr h0 !! inst_id I ->
       exists N1' h' l,
         bind N1 v T h = Ok (N1', h') /\
         h_attr h' !! inst_id I = Some l /\
         dict_at h' l !! tv_id v = Some T /\
         is_bound (TypeVarNamespace__init__ (Some I) h') v h'
           = Ok (PyBool true) /\
         binding_of (TypeVarNamespace__init__ (Some I) h') v h'
           = Ok (Some T)) /\
      (inst_GenericMeta I = false \/ typevar_in v (__parameters__ I) = false ->
       exists N1' h',
         bind N1 v T h = Ok (N1', h') /\
         binding_of N1' v h' = Ok (Some T) /\
         h' = h /\
         (binding_of (TypeVarNamespace__init__ (Some I) h) v h = Ok None ->
          (exists x, is_bound (TypeVarNamespace__init__ (Some I) h') v h' = Ok x /\
                     truthy h' x = false) /\
          binding_of (TypeVarNamespace__init__ (Some I) h') v h' = Ok None))) /\
  (inst_GenericMeta stack_obj = true /\
   typevar_in tv_T (__parameters__ stack_obj) = true /\
   inst_truthy heap_empty_stack stack_obj = false /\
   bind (TypeVarNamespace__init__ (Some stack_obj) heap_empty_stack)
     tv_T cls_int heap_empty_stack = Raise TypeError).
Proof.
  split; [|by vm_compute].
  intros ty Heq I v T h0 h N1. split.
  - intros HG Hin Ht0 Ht Hcur.
    assert (Href : _instance_ns N1 = None \/
                   _instance_ns N1 = StoreDict <$> h_attr h !! inst_id I).
    { unfold N1. rewrite (init_truthy I h0 Ht0).
      destruct Hcur as [-> | ->]; [by left|by right]. }
    destruct (bind_instance_scope N1 I v T h eq_refl HG Hin Href)
      as (l & h' & Hb & Ha & Hd & Ho).
    assert (Ht' : inst_truthy h' I = true)
      by (by rewrite (inst_truthy_objs I h h' Ho)).
    eexists _, h', l. split; [exact Hb|]. split; [exact Ha|]. split; [exact Hd|].
    split.
    + apply (is_bound_instance_scope _ _ _ l T); [done| |done].
      by rewrite (init_truthy I h' Ht'), Ha.
    + by rewrite (binding_of_init I v h' l Ht' Ha), Hd.
  - intros Hout.
    assert (Hg : is_generic_in N1 v = false).
    { unfold is_generic_in; simpl. destruct Hout as [-> | ->]; [done|].
      by destruct (inst_GenericMeta I). }
    eexists _, h. split; [by apply bind_call_scope|].
    split; [apply binding_of_call_scope; simpl; by rewrite lookup_insert_eq|].
    split; [done|]. intros Hnone. split; [|exact Hnone].
    pose proof (is_bound_binding_of (TypeVarNamespace__init__ (Some I) h) v h)
      as Hagree.
    rewrite Hnone in Hagree.
    destruct (is_bound (TypeVarNamespace__init__ (Some I) h) v h) as [x|e];
      [|done].
    exists x. split; [done|].
    destruct (truthy h x); [|done].
    destruct (proj1 Hagree eq_refl). discriminate.
Qed.

Lemma scope_routing_witness :
  (exists N1' h' l,
      bind (TypeVarNamespace__init__ (Some generic_obj) empty_heap)
        tv_T cls_int empty_heap = Ok (N1', h') /\
      h_attr h' !! inst_id generic_obj = Some l /\
      dict_at h' l !! tv_id tv_T = Some cls_int /\
      is_bound (TypeVarNamespace__init__ (Some generic_obj) h') tv_T h'
        = Ok (PyBool true) /\
      binding_of (TypeVarNamespace__init__ (Some generic_obj) h') tv_T h'
        = Ok (Some cls_int)) /\
  (exists N1' h',
      bind (TypeVarNamespace__init__ (Some generic_obj) empty_heap)
        tv_U cls_int empty_heap = Ok (N1', h') /\
      binding_of N1' tv_U h' = Ok (Some cls_int) /\
      h' = empty_heap /\
      (exists x,
          is_bound (TypeVarNamespace__init__ (Some generic_obj) h') tv_U h'
            = Ok x /\ truthy h' x = false) /\
      binding_of (TypeVarNamespace__init__ (Some generic_obj) h') tv_U h'
        = Ok None).
Proof.
  split.
  - apply (proj1 (proj1 scope_routing pyclass _ generic_obj tv_T cls_int
                    empty_heap empty_heap)); try reflexivity.
    by left.
  - destruct (proj2 (proj1 scope_routing pyclass _ generic_obj tv_U cls_int
                       empty_heap empty_heap) (or_intror eq_refl))
      as (N1' & h' & Hb & Hown & Hh & Hinv).
    exists N1', h'. split; [exact Hb|]. split; [exact Hown|].
    split; [exact Hh|]. exact (Hinv eq_refl).
Defined.

(** Claim C10.  A namespace [N] built with [instance=I] while the truthy
    [I] has no binding store holds [None] as its store reference, and
    nothing refreshes it when another namespace creates the store: whatever
    the heap becomes, [N.is_bound(v)] is [None] and [N.binding_of(v)] is
    [None] for every [v] not bound in the call scope of [N].  In particular,
    after a second namespace built on [I] later binds a parameter [v] of
    [I], the binding is found through that namespace and through any
    namespace built afterwards, and still not through [N].  Built on an
    empty stack, whose class defines [__len__] only, [N] holds the stack
    itself: once the stack has an item and a second namespace has bound the
    parameter of its class, [N.is_bound] and [N.binding_of] raise
    [TypeError]. *)
Theorem instance_scope_snapshot :
  (forall (ty : Type) `(EqDecision ty) (I : instance ty) (h : heap ty),
      inst_truthy h I = true ->
      h_attr h !! inst_id I = None ->
      let N := TypeVarNamespace__init__ (Some I) h in
      _instance_ns N = None /\
      (forall (N' : TypeVarNamespace ty) (v : TypeVar ty) (h' : heap ty),
          _instance_ns N' = _instance_ns N ->
          _ns N' !! tv_id v = None ->
          is_bound N' v h' = Ok PyNone /\ binding_of N' v h' = Ok None) /\
      (forall (v : TypeVar ty) (T : ty) (h1 : heap ty),
          inst_GenericMeta I = true ->
          typevar_in v (__parameters__ I) = true ->
          inst_truthy h1 I = true ->
          exists N2' h2,
            bind (TypeVarNamespace__init__ (Some I) h1) v T h1 = Ok (N2', h2) /\
            binding_of N2' v h2 = Ok (Some T) /\
            binding_of (TypeVarNamespace__init__ (Some I) h2) v h2
              = Ok (Some T) /\
            is_bound N v h2 = Ok PyNone /\
            truthy h2 PyNone = false /\
            binding_of N v h2 = Ok None)) /\
  (let N := TypeVarNamespace__init__ (Some stack_obj) heap_empty_stack in
   h_attr heap_empty_stack !! inst_id stack_obj = None /\
   _instance_ns N = Some (StoreInstance stack_obj) /\
   exists N2' h2,
     bind (TypeVarNamespace__init__ (Some stack_obj) heap_filled_stack)
       tv_T cls_int heap_filled_stack = Ok (N2', h2) /\
     binding_of N2' tv_T h2 = Ok (Some cls_int) /\
     is_bound N tv_T h2 = Raise TypeError /\
     binding_of N tv_T h2 = Raise TypeError).
Proof.
  split.
  - intros ty Heq I h Ht Hattr N.
    assert (HN : _instance_ns N = None).
    { unfold N. by rewrite (init_truthy I h Ht), Hattr. }
    assert (Hview : forall (N' : TypeVarNamespace ty) v h',
               _instance_ns N' = _instance_ns N -> _ns N' !! tv_id v = None ->
               is_bound N' v h' = Ok PyNone /\ binding_of N' v h' = Ok None).
    { intros N' v h' HN' Hns. rewrite HN in HN'.
      unfold is_bound, binding_of. rewrite Hns, HN'.
      by rewrite bool_decide_eq_false_2 by (intros []; discriminate). }
    split; [exact HN|]. split; [exact Hview|].
    intros v T h1 HG Hin Ht1.
    destruct (bind_instance_scope (TypeVarNamespace__init__ (Some I) h1)
                I v T h1 eq_refl HG Hin (or_intror (init_truthy I h1 Ht1)))
      as (l & h2 & Hb & Ha & Hd & Ho).
    assert (Ht2 : inst_truthy h2 I = true)
      by (by rewrite (inst_truthy_objs I h1 h2 Ho)).
    destruct (Hview N v h2 eq_refl (lookup_empty _)) as [Hib Hbo].
    eexists _, h2. split; [exact Hb|].
    split; [by apply (binding_of_instance_scope _ _ _ l T)|].
    split; [by rewrite (binding_of_init I v h2 l Ht2 Ha), Hd|].
    split; [exact Hib|]. split; [done|exact Hbo].
  - cbv zeta. split; [reflexivity|]. split; [reflexivity|].
    eexists _, _. split; [by vm_compute|]. by vm_compute.
Qed.

Lemma instance_scope_snapshot_witness :
  let N := TypeVarNamespace__init__ (Some generic_obj) empty_heap in
  exists N2' h',
    bind (TypeVarNamespace__init__ (Some generic_obj) empty_heap)
      tv_T cls_int empty_heap = Ok (N2', h') /\
    binding_of N2' tv_T h' = Ok (Some cls_int) /\
    binding_of (TypeVarNamespace__init__ (Some generic_obj) h') tv_T h'
      = Ok (Some cls_int) /\
    is_bound N tv_T h' = Ok PyNone /\
    truthy h' PyNone = false /\
    binding_of N tv_T h' = Ok None.
Proof.
  intros N.
  apply (proj2 (proj2 (proj1 instance_scope_snapshot pyclass _ generic_obj
                         empty_heap eq_refl eq_refl)) tv_T cls_int empty_heap);
    reflexivity.
Defined.

(** ** The registry *)

Section RegistryFacts.

Context {ty : Type}.

Implicit Types (reg pre post : list (entry ty)) (a x : pyobj ty).
Implicit Types (p : pyobj ty -> bool) (f : pyobj ty -> pyobj ty).

Lemma create_loop_app_no_match pre post a :
  no_match pre a -> create_loop (pre ++ post) a = create_loop post a.
Proof.
  induction 1 as [|[p f] pre Hp _ IH]; simpl; [done|].
  simpl in Hp. by rewrite Hp.
Qed.

Lemma create_loop_no_match reg a : no_match reg a -> create_loop reg a = PyNone.
Proof.
  intros Hno. rewrite <- (app_nil_r reg).
  by rewrite create_loop_app_no_match.
Qed.

(** The loop stops at the first entry whose predicate accepts. *)
Lemma create_loop_first_match pre p f post a :
  no_match pre a -> p a = true ->
  create_loop (pre ++ (p, f) :: post) a = f a.
Proof.
  intros Hno Hp. rewrite create_loop_app_no_match by done.
  simpl. by rewrite Hp.
Qed.

(** An entry behind a matching one is never reached. *)
Lemma create_loop_app_match reg post a :
  ~ no_match reg a -> create_loop (reg ++ post) a = create_loop reg a.
Proof.
  induction reg as [|[p f] reg IH]; simpl; intros Hno.
  - destruct Hno. constructor.
  - destruct (p a) eqn:Hp; [done|].
    apply IH. intros Hreg. apply Hno. by constructor.
Qed.

Lemma create_annotation reg a :
  isinstance_Checker a = false -> create reg a = create_loop reg a.
Proof. intros Ha. unfold create. by rewrite Ha. Qed.

Lemma create_checker reg x :
  isinstance_Checker x = true -> create reg x = x.
Proof. intros Hx. unfold create. by rewrite Hx. Qed.

(** A history of registrations leaves the entries registered with
    [prepend] in front, latest first, and the others behind, oldest first. *)
Lemma register_all_shape reg (calls : list (entry ty * bool)) :
  register_all reg calls = prepended calls ++ reg ++ appended calls.
Proof.
  revert reg. induction calls as [|[[p f] b] calls IH]; intros reg; simpl.
  - by rewrite app_nil_r.
  - rewrite IH. unfold register. destruct b; simpl.
    + by rewrite <- app_assoc.
    + by rewrite <- !app_assoc.
Qed.

Lemma prepended_app (c1 c2 : list (entry ty * bool)) :
  prepended (c1 ++ c2) = prepended c2 ++ prepended c1.
Proof.
  induction c1 as [|[e b] c1 IH]; simpl; [by rewrite app_nil_r|].
  by rewrite IH, app_assoc.
Qed.

Lemma appended_app (c1 c2 : list (entry ty * bool)) :
  appended (c1 ++ c2) = appended c1 ++ appended c2.
Proof.
  induction c1 as [|[e b] c1 IH]; simpl; [done|].
  by rewrite IH, app_assoc.
Qed.

Lemma no_match_prepended (calls : list (entry ty * bool)) a :
  no_match (calls.*1) a -> no_match (prepended calls) a.
Proof.
  unfold no_match. induction calls as [|[e b] calls IH]; simpl; [done|].
  intros [He Hrest]%Forall_cons. apply Forall_app. split; [by apply IH|].
  destruct b; by repeat constructor.
Qed.

Lemma no_match_appended (calls : list (entry ty * bool)) a :
  no_match (calls.*1) a -> no_match (appended calls) a.
Proof.
  unfold no_match. induction calls as [|[e b] calls IH]; simpl; [done|].
  intros [He Hrest]%Forall_cons. apply Forall_app. split; [|by apply IH].
  destruct b; by repeat constructor.
Qed.

(** Two accepting entries in a history whose other entries do not accept:
    the later one is reached first exactly when it was prepended. *)
Lemma create_loop_two_matches reg (c0 c1 c2 : list (entry ty * bool))
    p1 f1 b1 p2 f2 b2 a :
  no_match reg a -> no_match (c0.*1) a -> no_match (c1.*1) a ->
  no_match (c2.*1) a ->
  p1 a = true -> p2 a = true ->
  create_loop
    (register_all reg (c0 ++ ((p1, f1), b1) :: c1 ++ ((p2, f2), b2) :: c2)) a
  = if b2 then f2 a else f1 a.
Proof.
  intros Hreg H0 H1 H2 Hp1 Hp2.
  pose proof (no_match_prepended _ _ H0) as HP0.
  pose proof (no_match_prepended _ _ H1) as HP1.
  pose proof (no_match_prepended _ _ H2) as HP2.
  pose proof (no_match_appended _ _ H0) as HA0.
  pose proof (no_match_appended _ _ H1) as HA1.
  rewrite register_all_shape.
  rewrite prepended_app, appended_app; simpl.
  rewrite prepended_app, appended_app; simpl.
  rewrite <- !app_assoc.
  rewrite (create_loop_app_no_match _ _ _ HP2).
  destruct b2; simpl; [by rewrite Hp2|].
  rewrite (create_loop_app_no_match _ _ _ HP1).
  destruct b1; simpl; [by rewrite Hp1|].
  rewrite (create_loop_app_no_match _ _ _ HP0).
  rewrite (create_loop_app_no_match _ _ _ Hreg).
  rewrite (create_loop_app_no_match _ _ _ HA0).
  simpl. by rewrite Hp1.
Qed.

End RegistryFacts.

(** Claim C8.  [create] returns the factory result of the first entry, in
    list order, whose predicate accepts the annotation.  A registration
    with [prepend=True] of an accepting entry takes over the lookup; one
    without [prepend] leaves the lookup as it was when an entry accepted
    the annotation before.  So when, in a history of registrations, two
    entries accept an annotation and no other does, the factory of the one
    registered first is used, unless the later one was registered with
    [prepend=True], and then the factory of the later one is used. *)
Theorem create_registration_order :
  forall (ty : Type) (reg : list (entry ty))
         (c0 c1 c2 : list (entry ty * bool))
         (p1 p2 : pyobj ty -> bool) (f1 f2 : pyobj ty -> pyobj ty)
         (prepend1 prepend2 : bool) (a : pyobj ty),
    isinstance_Checker a = false ->
    p1 a = true ->
    p2 a = true ->
    (forall pre p f post,
        no_match pre a -> p a = true ->
        create (pre ++ (p, f) :: post) a = f a) /\
    (let reg1 := register reg p1 f1 prepend1 in
     let reg2 := register reg1 p2 f2 prepend2 in
     (prepend2 = true -> create reg2 a = f2 a) /\
     (prepend2 = false -> create reg2 a = create reg1 a)) /\
    (no_match reg a -> no_match (c0.*1) a -> no_match (c1.*1) a ->
     no_match (c2.*1) a ->
     create (register_all reg
               (c0 ++ ((p1, f1), prepend1) :: c1 ++ ((p2, f2), prepend2) :: c2))
            a
     = if prepend2 then f2 a else f1 a).
Proof.
  intros ty reg c0 c1 c2 p1 p2 f1 f2 prepend1 prepend2 a Ha Hp1 Hp2.
  split; [|split; [split|]].
  - intros pre p f post Hno Hp. rewrite create_annotation by done.
    by apply create_loop_first_match.
  - intros ->. rewrite create_annotation by done. simpl. by rewrite Hp2.
  - intros ->. rewrite !create_annotation by done. unfold register at 1.
    apply create_loop_app_match. unfold register, no_match.
    destruct prepend1.
    + intros [Hno _]%Forall_cons. simpl in Hno. congruence.
    + intros [_ [Hno _]%Forall_cons]%Forall_app. simpl in Hno. congruence.
  - intros Hreg H0 H1 H2. rewrite create_annotation by done.
    by apply create_loop_two_matches.
Qed.

Lemma create_registration_order_witness :
  let is_obj := fun x : pyobj pyclass =>
                  match x with PyObject _ _ => true | _ => false end in
  let f1 := fun _ : pyobj pyclass => UserChecker 1 in
  let f2 := fun _ : pyobj pyclass => UserChecker 2 in
  let other := ((inspect_isclass, TypeChecker), true) in
  let a := PyObject 5 cls_str in
  create (register_all module_registered
            [((is_obj, f1), false); other; ((is_obj, f2), false)]) a
    = UserChecker 1 /\
  create (register_all module_registered
            [((is_obj, f1), true); other; ((is_obj, f2), false)]) a
    = UserChecker 1 /\
  create (register_all module_registered
            [((is_obj, f1), false); other; ((is_obj, f2), true)]) a
    = UserChecker 2 /\
  create (register_all module_registered
            [((is_obj, f1), true); other; ((is_obj, f2), true)]) a
    = UserChecker 2.
Proof.
  intros is_obj f1 f2 other a.
  assert (Hreg : no_match module_registered a) by repeat constructor.
  assert (Hnil : no_match ([] : list (entry pyclass * bool)).*1 a)
    by constructor.
  assert (Hmid : no_match [other].*1 a) by repeat constructor.
  pose proof (fun b1 b2 =>
    proj2 (proj2 (create_registration_order pyclass module_registered
                    [] [other] [] is_obj is_obj f1 f2 b1 b2 a
                    eq_refl eq_refl eq_refl)) Hreg Hnil Hmid Hnil) as Hhist.
  split; [exact (Hhist false false)|].
  split; [exact (Hhist true false)|].
  split; [exact (Hhist false true)|exact (Hhist true true)].
Defined.

(** Claim C9.  [create] passes a checker through: for every [x] that is a
    [Checker] instance, [create(x)] is [x], hence
    [create(create(x)) = create(x)]; and for every annotation that no
    registered predicate accepts, [create] returns [None]. *)
Theorem create_idempotent_and_absent :
  forall (ty : Type) (reg : list (entry ty)),
    (forall x : pyobj ty,
        isinstance_Checker x = true ->
        create reg x = x /\ create reg (create reg x) = create reg x) /\
    (forall a : pyobj ty,
        isinstance_Checker a = false ->
        no_match reg a ->
        create reg a = PyNone).
Proof.
  intros ty reg. split.
  - intros x Hx. rewrite !create_checker by done. done.
  - intros a Ha Hno. rewrite create_annotation by done.
    by apply create_loop_no_match.
Qed.

Lemma create_idempotent_and_absent_witness :
  (create module_registered (TypeChecker (PyClass cls_int))
     = TypeChecker (PyClass cls_int) /\
   create module_registered
     (create module_registered (TypeChecker (PyClass cls_int)))
     = create module_registered (TypeChecker (PyClass cls_int))) /\
  create module_registered (PyObject 5 cls_str) = @PyNone pyclass.
Proof.
  split.
  - apply (proj1 (create_idempotent_and_absent pyclass module_registered)).
    reflexivity.
  - apply (proj2 (create_idempotent_and_absent pyclass module_registered)).
    + reflexivity.
    + repeat constructor.
Defined.

(** ** The optional checker *)

(** Claim C7.  For [optional(x)], [check(no_value, ns)] and
    [check(None, ns)] return [True] whatever the wrapped checker is, and
    leave the namespace alone; for every other value [v], [check(v, ns)] is
    the outcome of the wrapped checker's [check(v, ns)], the wrapped checker
    being [x] itself when [x] is a checker. *)
Theorem optional_check :
  forall (ty : Type) `(EqDecision ty) (issubclass : ty -> ty -> bool)
         (type_of : pyobj ty -> ty)
         (user_check : nat -> pyobj ty -> TypeVarNamespace ty -> heap ty ->
                       result (pyobj ty * TypeVarNamespace ty * heap ty))
         (reg : list (entry ty)) (x : pyobj ty)
         (ns : TypeVarNamespace ty) (h : heap ty),
    let chk := check issubclass type_of user_check in
    let o := optional__init__ reg x in
    chk o PyNoValue ns h = Ok (PyBool true, ns, h) /\
    chk o PyNone ns h = Ok (PyBool true, ns, h) /\
    (forall v, v <> PyNoValue -> v <> PyNone ->
               chk o v ns h = chk (create reg x) v ns h) /\
    (isinstance_Checker x = true ->
     o = optional x /\
     forall v, v <> PyNoValue -> v <> PyNone -> chk o v ns h = chk x v ns h).
Proof.
  intros ty Heq sub type_of user_check reg x ns h chk o.
  assert (Hother : forall v, v <> PyNoValue -> v <> PyNone ->
                             chk o v ns h = chk (create reg x) v ns h).
  { intros v Hnv Hnone. unfold chk, o, optional__init__. simpl.
    destruct v; simpl; congruence. }
  split; [done|]. split; [done|]. split; [exact Hother|].
  intros Hx. split.
  - unfold o, optional__init__. by rewrite create_checker.
  - intros v Hnv Hnone. rewrite (Hother v Hnv Hnone).
    by rewrite create_checker.
Qed.

Lemma optional_check_witness :
  let chk := check issubclass type_of user_check in
  let inner := TypeChecker (PyClass cls_int) in
  let o := optional__init__ module_registered inner in
  let ns := TypeVarNamespace__init__ None empty_heap in
  o = optional inner /\
  chk inner PyNone ns empty_heap = Ok (PyBool false, ns, empty_heap) /\
  chk o PyNone ns empty_heap = Ok (PyBool true, ns, empty_heap) /\
  chk o (PyObject 1 cls_str) ns empty_heap
    = chk inner (PyObject 1 cls_str) ns empty_heap /\
  chk o (PyBool true) ns empty_heap = Ok (PyBool true, ns, empty_heap).
Proof.
  intros chk inner o ns.
  destruct (optional_check pyclass _ issubclass type_of user_check
              module_registered inner ns empty_heap)
    as (_ & HNone & _ & Hinner).
  destruct (Hinner eq_refl) as [Ho Hv].
  split; [exact Ho|]. split; [reflexivity|]. split; [exact HNone|].
  split.
  - apply Hv; discriminate.
  - unfold chk, o. rewrite (Hv (PyBool true)) by discriminate. reflexivity.
Defined.


(** * Further properties of the namespace *)

(** X1.  [bind] raises exactly when the type variable is a parameter of the
    instance's class, the namespace holds the instance itself in place of a
    store (the instance was falsy when the namespace was built) and the
    instance does not take assignment by key; the exception is [TypeError].
    [bind_to_instance], called directly, raises in that case and,
    with [AttributeError], when the namespace has neither an instance nor a
    store. *)
Theorem bind_raises_exactly :
  forall (ty : Type) `(EqDecision ty)
         (ns : TypeVarNamespace ty) (v : TypeVar ty) (T : ty) (h : heap ty)
         (e : exn),
    (bind_to_instance ns v T h = Raise e <->
     (e = AttributeError /\ _instance ns = None /\ _instance_ns ns = None) \/
     (e = TypeError /\
      exists i, _instance_ns ns = Some (StoreInstance i) /\
                forall items others, obj_at h i <> Mapping items others)) /\
    (bind ns v T h = Raise e <->
     e = TypeError /\ is_generic_in ns v = true /\
     exists i, _instance_ns ns = Some (StoreInstance i) /\
               forall items others, obj_at h i <> Mapping items others).
Proof.
  intros ty Heq ns v T h e.
  assert (Hbti : bind_to_instance ns v T h = Raise e <->
     (e = AttributeError /\ _instance ns = None /\ _instance_ns ns = None) \/
     (e = TypeError /\
      exists i, _instance_ns ns = Some (StoreInstance i) /\
                forall items others, obj_at h i <> Mapping items others)).
  { unfold bind_to_instance, inst_setitem.
    destruct (_instance_ns ns) as [[l|i]|].
    - split; [discriminate|].
      intros [(_ & _ & HF) | (_ & i & HF & _)]; discriminate.
    - destruct (obj_at h i) as [|n iterable|items others] eqn:Ho.
      + split.
        * intros [= <-]. right. split; [done|]. exists i. split; [done|].
          intros items others HF. by rewrite Ho in HF.
        * intros [(_ & _ & HF) | (-> & _)]; [discriminate|done].
      + split.
        * intros [= <-]. right. split; [done|]. exists i. split; [done|].
          intros items others HF. by rewrite Ho in HF.
        * intros [(_ & _ & HF) | (-> & _)]; [discriminate|done].
      + split; [discriminate|].
        intros [(_ & _ & HF) | (_ & j & [= <-] & Hno)]; [discriminate|].
        by destruct (Hno items others).
    - destruct (_instance ns) as [I|].
      + unfold setattr_new_dict. cbv zeta. split; [discriminate|].
        intros [(_ & HF & _) | (_ & i & HF & _)]; discriminate.
      + split; [intros [= <-]; by left|].
        intros [(-> & _) | (_ & i & HF & _)]; [done|discriminate]. }
  split; [exact Hbti|].
  unfold bind. destruct (is_generic_in ns v) eqn:Hg.
  - rewrite Hbti. split.
    + intros [(_ & HI & _) | (-> & Hi)]; [|done].
      destruct (is_generic_in_instance _ _ Hg) as (I & HI' & _). congruence.
    + intros (-> & _ & Hi). by right.
  - split; [discriminate|]. intros (_ & HF & _). discriminate.
Qed.

(** X2.  A [bind] or an [is_compatible] on [v] changes the binding of [v]
    only: for every type variable [w] other than [v], the namespace itself
    and every other namespace report for [w] what they reported before. *)
Theorem bind_frame :
  forall (ty : Type) `(EqDecision ty) (issubclass : ty -> ty -> bool)
         (ns : TypeVarNamespace ty) (v w : TypeVar ty) (T : ty) (h : heap ty),
    tv_id w <> tv_id v ->
    (forall ns' h',
        bind ns v T h = Ok (ns', h') ->
        binding_of ns' w h' = binding_of ns w h /\
        forall other, binding_of other w h' = binding_of other w h) /\
    (forall r ns' h',
        is_compatible issubclass ns v T h = Ok (r, ns', h') ->
        binding_of ns' w h' = binding_of ns w h /\
        forall other, binding_of other w h' = binding_of other w h).
Proof.
  intros ty Heq sub ns v w T h Hne.
  assert (Hbind : forall ns' h',
             bind ns v T h = Ok (ns', h') ->
             binding_of ns' w h' = binding_of ns w h /\
             forall other, binding_of other w h' = binding_of other w h).
  { intros ns' h' Hb. split; [by apply (bind_frame_self ns v w T)|].
    intros other. by apply (bind_frame_other ns v w T h ns'). }
  split; [exact Hbind|].
  intros r ns' h' Hc.
  destruct (is_compatible_cases sub _ _ _ _ _ _ _ Hc)
    as [(-> & -> & _) | (_ & _ & Hb)]; [done|].
  by apply Hbind.
Qed.

Lemma bind_frame_witness :
  let ns := {| _ns := {[ tv_id tv_T := cls_int ]}; _instance := Some generic_pair_obj;
               _instance_ns := None |} in
  exists ns' h',
    bind ns tv_V cls_str empty_heap = Ok (ns', h') /\
    binding_of ns' tv_V h' = Ok (Some cls_str) /\
    binding_of ns' tv_T h' = Ok (Some cls_int) /\
    forall other, binding_of other tv_T h' = binding_of other tv_T empty_heap.
Proof.
  intros ns.
  assert (Hne : tv_id tv_T <> tv_id tv_V) by discriminate.
  eexists _, _. split; [reflexivity|]. split; [reflexivity|].
  destruct (proj1 (bind_frame pyclass _ issubclass ns tv_V tv_T cls_str
                     empty_heap Hne) _ _ eq_refl) as [Hself Hother].
  split; [|exact Hother]. rewrite Hself. reflexivity.
Defined.

(** X3.  The call scope of a namespace never holds a type variable that
    [bind] routes to the instance: this holds for a namespace as
    constructed and is kept by [bind] and by [is_compatible]. *)
Theorem call_scope_routed_kept :
  forall (ty : Type) `(EqDecision ty) (issubclass : ty -> ty -> bool),
    (forall (inst : option (instance ty)) (h : heap ty),
        call_scope_routed (TypeVarNamespace__init__ inst h)) /\
    (forall (ns : TypeVarNamespace ty) (v : TypeVar ty) (T : ty) (h : heap ty)
            ns' h',
        call_scope_routed ns ->
        bind ns v T h = Ok (ns', h') -> call_scope_routed ns') /\
    (forall (ns : TypeVarNamespace ty) (v : TypeVar ty) (T : ty) (h : heap ty)
            r ns' h',
        call_scope_routed ns ->
        is_compatible issubclass ns v T h = Ok (r, ns', h') ->
        call_scope_routed ns').
Proof.
  intros ty Heq sub. split; [|split].
  - intros inst h. apply init_call_scope_routed.
  - intros ns v T h ns' h' Hinv Hb.
    by apply (bind_keeps_call_scope_routed ns v T h ns' h').
  - intros ns v T h r ns' h' Hinv Hc.
    destruct (is_compatible_cases sub _ _ _ _ _ _ _ Hc)
      as [(-> & -> & _) | (_ & _ & Hb)]; [done|].
    by apply (bind_keeps_call_scope_routed ns v T h ns' h').
Qed.

Lemma call_scope_routed_kept_witness :
  exists ns1 h1 ns2 h2,
    bind (TypeVarNamespace__init__ (Some generic_obj) empty_heap)
      tv_U cls_int empty_heap = Ok (ns1, h1) /\
    is_compatible issubclass ns1 tv_T cls_str h1 = Ok (true, ns2, h2) /\
    call_scope_routed ns2.
Proof.
  destruct (call_scope_routed_kept pyclass _ issubclass)
    as (Hinit & Hbind & Hcompat).
  destruct (bind (TypeVarNamespace__init__ (Some generic_obj) empty_heap)
              tv_U cls_int empty_heap) as [[ns1 h1]|e] eqn:H1;
    [|by vm_compute in H1].
  pose proof H1 as E1. vm_compute in E1. injection E1 as <- <-.
  destruct (is_compatible issubclass
              {| _ns := {[ tv_id tv_U := cls_int ]};
                 _instance := Some generic_obj; _instance_ns := None |}
              tv_T cls_str empty_heap) as [[[r ns2] h2]|e] eqn:H2;
    [|by vm_compute in H2].
  pose proof H2 as E2. vm_compute in E2. injection E2 as <- <- <-.
  eexists _, _, _, _. split; [reflexivity|]. split; [exact H2|].
  exact (Hcompat _ _ _ _ _ _ _ (Hbind _ _ _ _ _ _ (Hinit _ _) H1) H2).
Defined.

(** X4.  On a namespace whose call scope holds no variable routed to the
    instance, [binding_of(v)] after [bind(v, T)] is [T] and [is_bound(v)]
    is truthy, whatever [v] was bound to before: a direct [bind] overwrites. *)
Theorem bind_then_binding_of :
  forall (ty : Type) `(EqDecision ty)
         (ns : TypeVarNamespace ty) (v : TypeVar ty) (T : ty) (h : heap ty)
         ns' h',
    call_scope_routed ns ->
    bind ns v T h = Ok (ns', h') ->
    binding_of ns' v h' = Ok (Some T) /\
    exists x, is_bound ns' v h' = Ok x /\ truthy h' x = true.
Proof.
  intros ty Heq ns v T h ns' h' Hinv Hb.
  pose proof (bind_round_trip ns v T h ns' h' Hinv Hb) as Hrt.
  split; [exact Hrt|].
  pose proof (is_bound_binding_of ns' v h') as Hagree. rewrite Hrt in Hagree.
  destruct (is_bound ns' v h') as [x|e]; [|done].
  exists x. split; [done|]. apply Hagree. eauto.
Qed.

Lemma bind_then_binding_of_witness :
  let ns1 := {| _ns := {[ tv_id tv_T := cls_int ]}; _instance := None;
                _instance_ns := None |} in
  call_scope_routed ns1 /\
  binding_of ns1 tv_T empty_heap = Ok (Some cls_int) /\
  exists ns2 h2,
    bind ns1 tv_T cls_str empty_heap = Ok (ns2, h2) /\
    binding_of ns2 tv_T h2 = Ok (Some cls_str) /\
    exists x, is_bound ns2 tv_T h2 = Ok x /\ truthy h2 x = true.
Proof.
  intros ns1.
  assert (Hinv : call_scope_routed ns1) by (intros w _; reflexivity).
  split; [exact Hinv|]. split; [reflexivity|].
  eexists _, _. split; [reflexivity|].
  exact (bind_then_binding_of pyclass _ ns1 tv_T cls_str empty_heap _ _
           Hinv eq_refl).
Defined.

(** X5.  [is_bound] and [binding_of] agree: they raise in the same states
    with the same exception, and otherwise the value [is_bound(v)] returns
    ([True], [False], [None], an empty store or a falsy instance) is truthy
    exactly when [binding_of(v)] returns a type. *)
Theorem is_bound_agrees_with_binding_of :
  forall (ty : Type) `(EqDecision ty)
         (ns : TypeVarNamespace ty) (v : TypeVar ty) (h : heap ty),
    (forall e, is_bound ns v h = Raise e <-> binding_of ns v h = Raise e) /\
    (forall b, binding_of ns v h = Ok b -> exists x, is_bound ns v h = Ok x) /\
    (forall x, is_bound ns v h = Ok x ->
       (truthy h x = true <-> exists T, binding_of ns v h = Ok (Some T)) /\
       (truthy h x = false <-> binding_of ns v h = Ok None)).
Proof.
  intros ty Heq ns v h.
  pose proof (is_bound_binding_of ns v h) as Hagree.
  destruct (is_bound ns v h) as [x|e], (binding_of ns v h) as [b|e'];
    try done.
  - split; [split; discriminate|]. split; [eauto|].
    intros y [= <-]. destruct b as [T|], (truthy h x) eqn:Ht.
    + split; split; eauto; discriminate.
    + assert (false = true) by (apply Hagree; eauto). discriminate.
    + destruct (proj1 Hagree eq_refl). discriminate.
    + split; split; try done. intros [T HT]. discriminate.
  - subst e'. split; [split; intros [= ->]; done|].
    split; discriminate.
Qed.

(** X6.  Namespaces built on a truthy instance that already holds a store
    share that store: a parameter of the instance's class bound through one
    of them is found at once through every namespace that holds the same
    store and has no call-scope binding for the variable, also one built
    before the [bind]. *)
Theorem instance_store_shared :
  forall (ty : Type) `(EqDecision ty) (I : instance ty) (v : TypeVar ty)
         (T : ty) (h : heap ty) (l : nat) (other : TypeVarNamespace ty),
    inst_truthy h I = true ->
    h_attr h !! inst_id I = Some l ->
    inst_GenericMeta I = true ->
    typevar_in v (__parameters__ I) = true ->
    _instance_ns other = Some (StoreDict l) ->
    _ns other !! tv_id v = None ->
    _instance_ns (TypeVarNamespace__init__ (Some I) h) = Some (StoreDict l) /\
    exists ns' h',
      bind (TypeVarNamespace__init__ (Some I) h) v T h = Ok (ns', h') /\
      h_attr h' !! inst_id I = Some l /\
      binding_of other v h' = Ok (Some T) /\
      is_bound other v h' = Ok (PyBool true).
Proof.
  intros ty Heq I v T h l other Ht Hattr HG Hin Hother Hns.
  assert (Href : _instance_ns (TypeVarNamespace__init__ (Some I) h)
                 = Some (StoreDict l)).
  { by rewrite (init_truthy I h Ht), Hattr. }
  split; [exact Href|].
  destruct (bind_total (TypeVarNamespace__init__ (Some I) h) v T h)
    as (ns' & h' & Hb).
  { intros i. rewrite Href. discriminate. }
  exists ns', h'. split; [exact Hb|].
  destruct (bind_cases _ _ _ _ _ _ Hb)
    as [(Hg & _) | [(_ & l0 & Hl & _ & ->) |
        [(_ & I0 & _ & Hl & _) | (_ & i & items & others & Hl & _)]]].
  - unfold is_generic_in in Hg; simpl in Hg. rewrite HG, Hin in Hg.
    discriminate.
  - rewrite Href in Hl. injection Hl as <-.
    assert (Hd : dict_at (dict_setitem l v T h) l !! tv_id v = Some T)
      by (by rewrite dict_at_setitem, lookup_insert_eq).
    split; [exact Hattr|]. split.
    + by apply (binding_of_instance_scope _ _ _ l).
    + by apply (is_bound_instance_scope _ _ _ l T).
  - rewrite Href in Hl. discriminate.
  - rewrite Href in Hl. discriminate.
Qed.

Lemma instance_store_shared_witness :
  let h := {| h_dicts := {[ 0 := {[ tv_id tv_V := cls_int ]} ]};
              h_attr := {[ inst_id generic_pair_obj := 0 ]};
              h_objs := ∅ |} in
  let other := TypeVarNamespace__init__ (Some generic_pair_obj) h in
  binding_of other tv_T h = Ok None /\
  exists ns' h',
    bind (TypeVarNamespace__init__ (Some generic_pair_obj) h) tv_T cls_str h
      = Ok (ns', h') /\
    h_attr h' !! inst_id generic_pair_obj = Some 0 /\
    binding_of other tv_T h' = Ok (Some cls_str) /\
    is_bound other tv_T h' = Ok (PyBool true).
Proof.
  intros h other. split; [reflexivity|].
  apply (proj2 (instance_store_shared pyclass _ generic_pair_obj tv_T cls_str
                  h 0 other eq_refl eq_refl eq_refl eq_refl eq_refl eq_refl)).
Defined.

(** X7.  A namespace built while the truthy instance held no store keeps
    [None] as its store reference, so its first instance-level [bind] gives
    the instance a new dict in place of the store another namespace created
    in the meantime: the binding made through that other namespace is still
    found through it, but no longer through a namespace built on the
    instance afterwards. *)
Theorem stale_namespace_replaces_store :
  forall (ty : Type) `(EqDecision ty) (I : instance ty) (v w : TypeVar ty)
         (Tv Tw : ty) (h : heap ty),
    inst_truthy h I = true ->
    h_attr h !! inst_id I = None ->
    inst_GenericMeta I = true ->
    typevar_in v (__parameters__ I) = true ->
    typevar_in w (__parameters__ I) = true ->
    tv_id v <> tv_id w ->
    let stale := TypeVarNamespace__init__ (Some I) h in
    exists first h1 stale' h2,
      bind (TypeVarNamespace__init__ (Some I) h) v Tv h = Ok (first, h1) /\
      binding_of (TypeVarNamespace__init__ (Some I) h1) v h1 = Ok (Some Tv) /\
      bind stale w Tw h1 = Ok (stale', h2) /\
      h_attr h2 !! inst_id I <> h_attr h1 !! inst_id I /\
      binding_of first v h2 = Ok (Some Tv) /\
      binding_of (TypeVarNamespace__init__ (Some I) h2) v h2 = Ok None /\
      binding_of (TypeVarNamespace__init__ (Some I) h2) w h2 = Ok (Some Tw).
Proof.
  intros ty Heq I v w Tv Tw h Ht Hattr HG Hv Hw Hne stale.
  assert (Hgen : forall x, typevar_in x (__parameters__ I) = true ->
                           is_generic_in stale x = true).
  { intros x Hx. unfold is_generic_in; simpl. by rewrite HG. }
  assert (Hstale : _instance_ns stale = None).
  { unfold stale. by rewrite (init_truthy I h Ht), Hattr. }
  set (l1 := fresh (dom (h_dicts h))).
  set (h1 := {| h_dicts := <[l1 := {[tv_id v := Tv]}]> (h_dicts h);
                h_attr := <[inst_id I := l1]> (h_attr h);
                h_objs := h_objs h |}).
  set (l2 := fresh (dom (h_dicts h1))).
  set (h2 := {| h_dicts := <[l2 := {[tv_id w := Tw]}]> (h_dicts h1);
                h_attr := <[inst_id I := l2]> (h_attr h1);
                h_objs := h_objs h1 |}).
  assert (Hl : l2 <> l1).
  { intros Heq12. apply (is_fresh (dom (h_dicts h1))). fold l2.
    rewrite Heq12. simpl. rewrite dom_insert. set_solver. }
  assert (Hb1 : bind stale v Tv h =
                Ok ({| _ns := _ns stale; _instance := Some I;
                       _instance_ns := Some (StoreDict l1) |}, h1)).
  { unfold bind. rewrite (Hgen v Hv).
    by rewrite (bind_to_instance_new stale v Tv h I eq_refl Hstale). }
  assert (Hb2 : bind stale w Tw h1 =
                Ok ({| _ns := _ns stale; _instance := Some I;
                       _instance_ns := Some (StoreDict l2) |}, h2)).
  { unfold bind. rewrite (Hgen w Hw).
    by rewrite (bind_to_instance_new stale w Tw h1 I eq_refl Hstale). }
  assert (Hd11 : dict_at h1 l1 = {[tv_id v := Tv]}).
  { unfold dict_at; simpl. by rewrite lookup_insert_eq. }
  assert (Hd21 : dict_at h2 l1 = {[tv_id v := Tv]}).
  { unfold dict_at; simpl. rewrite lookup_insert_ne by done.
    by rewrite lookup_insert_eq. }
  assert (Hd22 : dict_at h2 l2 = {[tv_id w := Tw]}).
  { unfold dict_at; simpl. by rewrite lookup_insert_eq. }
  assert (Ha1 : h_attr h1 !! inst_id I = Some l1)
    by (simpl; by rewrite lookup_insert_eq).
  assert (Ha2 : h_attr h2 !! inst_id I = Some l2)
    by (simpl; by rewrite lookup_insert_eq).
  assert (Ht1 : inst_truthy h1 I = true)
    by (by rewrite (inst_truthy_objs I h h1 eq_refl)).
  assert (Ht2 : inst_truthy h2 I = true)
    by (by rewrite (inst_truthy_objs I h h2 eq_refl)).
  eexists _, h1, _, h2. split; [exact Hb1|].
  split.
  { by rewrite (binding_of_init I v h1 l1 Ht1 Ha1), Hd11, lookup_singleton_eq. }
  split; [exact Hb2|]. split; [rewrite Ha1, Ha2; congruence|].
  split.
  { apply (binding_of_instance_scope _ _ _ l1); [done|done|].
    by rewrite Hd21, lookup_singleton_eq. }
  split.
  - rewrite (binding_of_init I v h2 l2 Ht2 Ha2), Hd22.
    f_equal. apply lookup_singleton_ne. congruence.
  - by rewrite (binding_of_init I w h2 l2 Ht2 Ha2), Hd22, lookup_singleton_eq.
Qed.

Lemma stale_namespace_replaces_store_witness :
  let stale := TypeVarNamespace__init__ (Some generic_pair_obj) empty_heap in
  exists first h1 stale' h2,
    bind (TypeVarNamespace__init__ (Some generic_pair_obj) empty_heap)
      tv_T cls_int empty_heap = Ok (first, h1) /\
    binding_of (TypeVarNamespace__init__ (Some generic_pair_obj) h1) tv_T h1
      = Ok (Some cls_int) /\
    bind stale tv_V cls_float h1 = Ok (stale', h2) /\
    h_attr h2 !! inst_id generic_pair_obj
      <> h_attr h1 !! inst_id generic_pair_obj /\
    binding_of first tv_T h2 = Ok (Some cls_int) /\
    binding_of (TypeVarNamespace__init__ (Some generic_pair_obj) h2) tv_T h2
      = Ok None /\
    binding_of (TypeVarNamespace__init__ (Some generic_pair_obj) h2) tv_V h2
      = Ok (Some cls_float).
Proof.
  intros stale.
  apply (stale_namespace_replaces_store pyclass _ generic_pair_obj tv_T tv_V
           cls_int cls_float empty_heap);
    [reflexivity|reflexivity|reflexivity|reflexivity|reflexivity|discriminate].
Defined.



(** X9.  For a contravariant [v] bound to [T], where [v] declares no bound
    or [T] is a subclass of the bound, [is_compatible(v, S)] returns [True]
    for every [S] that [T] is a subclass of, and [False] for every other
    [S]; when [T] is not a subclass of the bound it returns [False] for
    every [S].  The call binds nothing. *)
Theorem contravariant_is_compatible :
  forall (ty : Type) `(EqDecision ty) (issubclass : ty -> ty -> bool)
         (ns : TypeVarNamespace ty) (v : TypeVar ty) (T : ty) (h : heap ty),
    __covariant__ v = false ->
    __contravariant__ v = true ->
    binding_of ns v h = Ok (Some T) ->
    ((forall U, __bound__ v = Some U -> issubclass T U = true) ->
     forall S, is_compatible issubclass ns v S h = Ok (issubclass T S, ns, h)) /\
    (forall U, __bound__ v = Some U -> issubclass T U = false ->
     forall S, is_compatible issubclass ns v S h = Ok (false, ns, h)).
Proof.
  intros ty Heq sub ns v T h Hco Hcontra Hb. split.
  - intros Hok S.
    rewrite (is_compatible_bound sub ns v T S h Hb), Hco, Hcontra.
    destruct (__bound__ v) as [U|]; [|done]. by rewrite (Hok U).
  - intros U HU Hsub S.
    by rewrite (is_compatible_bound sub ns v T S h Hb), HU, Hsub.
Qed.

Lemma contravariant_is_compatible_witness :
  let ns := {| _ns := {[ tv_id tv_W := cls_int ]}; _instance := None;
               _instance_ns := None |} in
  is_compatible issubclass ns tv_W cls_Number empty_heap
    = Ok (true, ns, empty_heap) /\
  is_compatible issubclass ns tv_W cls_bool empty_heap
    = Ok (false, ns, empty_heap).
Proof.
  intros ns.
  destruct (contravariant_is_compatible pyclass _ issubclass ns tv_W cls_int
              empty_heap eq_refl eq_refl eq_refl) as [Hok _].
  assert (Hb : forall U, __bound__ tv_W = Some U -> issubclass cls_int U = true)
    by (intros U HU; discriminate HU).
  split; [exact (Hok Hb cls_Number)|exact (Hok Hb cls_bool)].
Defined.

(** * Further properties of the registry and the checkers *)

Section RegistryHistory.

Context {ty : Type}.

Implicit Types (reg : list (entry ty)) (calls : list (entry ty * bool)).
Implicit Types (a x : pyobj ty).

Lemma prepended_filter calls :
  prepended calls = reverse (filter (fun c => c.2 = true) calls).*1.
Proof.
  induction calls as [|[e b] calls IH]; simpl; [done|].
  rewrite IH. destruct b.
  - rewrite filter_cons_True by done. by rewrite fmap_cons, reverse_cons.
  - rewrite filter_cons_False by (simpl; congruence). by rewrite app_nil_r.
Qed.

Lemma appended_filter calls :
  appended calls = (filter (fun c => c.2 = false) calls).*1.
Proof.
  induction calls as [|[e b] calls IH]; simpl; [done|].
  rewrite IH. destruct b.
  - by rewrite filter_cons_False by (simpl; congruence).
  - by rewrite filter_cons_True by done.
Qed.

Lemma register_all_length reg calls :
  length (register_all reg calls) = length reg + length calls.
Proof.
  revert reg. induction calls as [|[[p f] b] calls IH]; intros reg; simpl.
  - lia.
  - rewrite IH. unfold register. destruct b; simpl; [lia|].
    rewrite length_app; simpl. lia.
Qed.

Lemma no_match_prepended_calls calls a :
  (forall e, (e, true) ∈ calls -> e.1 a = false) ->
  no_match (prepended calls) a.
Proof.
  unfold no_match. induction calls as [|[e b] calls IH]; intros Hc; simpl.
  - constructor.
  - apply Forall_app. split.
    + apply IH. intros e' He'. apply Hc. apply elem_of_cons. by right.
    + destruct b; [|constructor].
      repeat constructor. apply Hc. apply elem_of_cons. by left.
Qed.

End RegistryHistory.

(** X10.  [register] keeps what was registered: after any sequence of
    [register] calls the list consists of the entries registered with
    [prepend], the latest first, then the entries it started with in their
    order, then the entries registered without [prepend], the oldest first;
    its length grew by one per call. *)
Theorem register_all_order :
  forall (ty : Type) (reg : list (entry ty)) (calls : list (entry ty * bool)),
    register_all reg calls =
      reverse (filter (fun c => c.2 = true) calls).*1 ++ reg ++
      (filter (fun c => c.2 = false) calls).*1 /\
    length (register_all reg calls) = length reg + length calls.
Proof.
  intros ty reg calls. split.
  - by rewrite register_all_shape, prepended_filter, appended_filter.
  - apply register_all_length.
Qed.

(** X11.  The module registers the plain-class entry at load time, so for
    an annotation that is a class every entry registered later without
    [prepend] is out of reach: unless an entry registered with [prepend]
    accepts the class, [create] returns the [TypeChecker] of the class. *)
Theorem create_class_annotation :
  forall (ty : Type) (calls : list (entry ty * bool)) (c : ty),
    (forall e, (e, true) ∈ calls -> e.1 (PyClass c) = false) ->
    create (register_all module_registered calls) (PyClass c)
      = TypeChecker (PyClass c).
Proof.
  intros ty calls c Hpre.
  rewrite create_annotation by done.
  rewrite register_all_shape.
  rewrite create_loop_app_no_match by (by apply no_match_prepended_calls).
  reflexivity.
Qed.

Lemma create_class_annotation_witness :
  let generic := fun x : pyobj pyclass =>
                   match x with PyClass cls_Number => true | _ => false end in
  let f := fun _ : pyobj pyclass => UserChecker 1 in
  let isobj := fun x : pyobj pyclass =>
                 match x with PyObject _ _ => true | _ => false end in
  create (register_all module_registered
            [((generic, f), false); ((isobj, f), true)]) (PyClass cls_Number)
    = TypeChecker (PyClass cls_Number).
Proof.
  intros generic f isobj.
  apply (create_class_annotation pyclass
           [((generic, f), false); ((isobj, f), true)] cls_Number).
  intros e He.
  apply elem_of_cons in He as [He|He]; [discriminate He|].
  apply elem_of_cons in He as [He|He]; [by injection He as ->|].
  by apply elem_of_nil in He.
Defined.

(** X12.  Wrapping twice is wrapping once: [optional(optional(x))] gives
    on every value the outcome [optional(x)] gives. *)
Theorem optional_optional :
  forall (ty : Type) `(EqDecision ty) (issubclass : ty -> ty -> bool)
         (type_of : pyobj ty -> ty)
         (user_check : nat -> pyobj ty -> TypeVarNamespace ty -> heap ty ->
                       result (pyobj ty * TypeVarNamespace ty * heap ty))
         (reg : list (entry ty)) (x value : pyobj ty)
         (ns : TypeVarNamespace ty) (h : heap ty),
    check issubclass type_of user_check
      (optional__init__ reg (optional__init__ reg x)) value ns h
    = check issubclass type_of user_check (optional__init__ reg x) value ns h.
Proof.
  intros ty Heq sub type_of user_check reg x value ns h.
  unfold optional__init__ at 1.
  rewrite (create_checker reg (optional__init__ reg x)) by done.
  unfold optional__init__. simpl.
  by destruct (is_no_value value), (is_None value).
Qed.

(** X13.  [optional] of an annotation that no registered predicate accepts
    wraps [None]: it is constructed without error, still accepts
    [no_value] and [None], and raises [AttributeError] on every other
    value. *)
Theorem optional_of_unknown_annotation :
  forall (ty : Type) `(EqDecision ty) (issubclass : ty -> ty -> bool)
         (type_of : pyobj ty -> ty)
         (user_check : nat -> pyobj ty -> TypeVarNamespace ty -> heap ty ->
                       result (pyobj ty * TypeVarNamespace ty * heap ty))
         (reg : list (entry ty)) (a : pyobj ty)
         (ns : TypeVarNamespace ty) (h : heap ty),
    isinstance_Checker a = false ->
    no_match reg a ->
    let chk := check issubclass type_of user_check in
    optional__init__ reg a = optional PyNone /\
    chk (optional__init__ reg a) PyNoValue ns h = Ok (PyBool true, ns, h) /\
    chk (optional__init__ reg a) PyNone ns h = Ok (PyBool true, ns, h) /\
    forall value, value <> PyNoValue -> value <> PyNone ->
                  chk (optional__init__ reg a) value ns h = Raise AttributeError.
Proof.
  intros ty Heq sub type_of user_check reg a ns h Ha Hno chk.
  assert (Ho : optional__init__ reg a = optional PyNone).
  { unfold optional__init__. rewrite create_annotation by done.
    by rewrite create_loop_no_match. }
  rewrite Ho. split; [done|]. split; [done|]. split; [done|].
  intros value Hnv Hnone. by destruct value.
Qed.

Lemma optional_of_unknown_annotation_witness :
  let chk := check issubclass type_of user_check in
  let ns := TypeVarNamespace__init__ None empty_heap in
  let o := optional__init__ module_registered (PyObject 3 cls_str) in
  o = optional PyNone /\
  chk o PyNone ns empty_heap = Ok (PyBool true, ns, empty_heap) /\
  chk o (PyBool false) ns empty_heap = Raise AttributeError.
Proof.
  intros chk ns o.
  assert (Hno : no_match module_registered (PyObject 3 cls_str : pyobj pyclass))
    by repeat constructor.
  destruct (optional_of_unknown_annotation pyclass _ issubclass type_of
              user_check module_registered (PyObject 3 cls_str) ns empty_heap
              eq_refl Hno) as (Ho & _ & HNone & Hother).
  split; [exact Ho|]. split; [exact HNone|].
  apply Hother; discriminate.
Defined.

(** X15.  With the registry of the module, [optional(C)] for a class [C]
    accepts [no_value], [None] and the values whose type is a subclass of
    [C], and nothing else. *)
Theorem optional_class_check :
  forall (ty : Type) `(EqDecision ty) (issubclass : ty -> ty -> bool)
         (type_of : pyobj ty -> ty)
         (user_check : nat -> pyobj ty -> TypeVarNamespace ty -> heap ty ->
                       result (pyobj ty * TypeVarNamespace ty * heap ty))
         (c : ty) (value : pyobj ty) (ns : TypeVarNamespace ty) (h : heap ty),
    check issubclass type_of user_check
      (optional__init__ module_registered (PyClass c)) value ns h
    = Ok (PyBool (is_no_value value || is_None value ||
                  issubclass (type_of value) c), ns, h).
Proof.
  intros ty Heq sub type_of user_check c value ns h.
  unfold optional__init__. simpl.
  by destruct (is_no_value value), (is_None value).
Qed.

(** * The module switch and the exception classes *)

(** X16.  After any sequence of [enable()] and [disable()] calls the flag
    is what the last call set, whatever it was before; without a call it is
    as it was, and it is [True] when the module is loaded. *)
Theorem switch_last_call_wins :
  forall (calls : list switch_call) (_enabled : bool),
    run_switch_calls _enabled calls =
      match last calls with
      | None => _enabled
      | Some call_enable => true
      | Some call_disable => false
      end /\
    run_switch_calls _enabled_at_load [] = true.
Proof.
  intros calls flag. split; [|reflexivity].
  revert flag. induction calls as [|c calls IH]; intros flag; [done|].
  simpl. rewrite IH. destruct calls as [|c' calls]; [by destruct c|].
  change (last (c :: c' :: calls)) with (last (c' :: calls)).
  destruct (last (c' :: calls)) as [[]|] eqn:Hl; try done.
  apply last_None in Hl. discriminate.
Qed.

(** X17.  Among the exception classes of the module, the subclasses of
    [TypeCheckError] are [TypeCheckError], [InputParameterError] and
    [ReturnValueError]: [TypeCheckSpecificationError] is not one of them,
    and neither of the two leaf classes is a subclass of the other.  All
    of them are subclasses of [Exception]. *)
Theorem exception_hierarchy :
  forall c : exc_class,
    (exc_issubclass c TypeCheckError = true <->
     c = TypeCheckError \/ c = InputParameterError \/ c = ReturnValueError) /\
    exc_issubclass c Exception = true /\
    (exc_issubclass c TypeCheckSpecificationError = true <->
     c = TypeCheckSpecificationError) /\
    exc_issubclass InputParameterError ReturnValueError = false /\
    exc_issubclass ReturnValueError InputParameterError = false.
Proof.
  intros c. destruct c; vm_compute; intuition congruence.
Qed.
